(** * Verification of the RAGAS evaluation sample

    Shallow embedding of the two scripts of the Copilot Studio client sample:

    - [ragas_evaluation.py]: reads a CSV of question/answer/reference rows,
      packages them for the [ragas] evaluator, saves the scores to a CSV;
    - [evaluation/test_azure_config.py]: checks the Azure OpenAI settings.

    Both scripts are straight-line Python that prints to the console, reads
    and pops environment variables, touches files and calls third-party
    code.  They are embedded in a state-and-exception monad over an explicit
    [World]; what third-party code answers is a parameter ([Externals]) of
    the development, and every call to it is recorded in the world's trace. *)

From Stdlib Require Import Ascii String.
From stdpp Require Import gmap strings list pretty.

Open Scope string_scope.
Open Scope list_scope.

(** ** Python run time *)

Module Py.

(** Python [str].  A character of the model stands for one character of the
    Python string; the non-ASCII marks of the console messages are kept as
    they are encoded in the source files. *)

Fixpoint str_repeat (s : string) (n : nat) : string :=
  match n with
  | O => ""
  | S k => s +:+ str_repeat s k
  end.

(** The line feed, written backslash-n in the sources. *)
Definition nl : string := String "010"%char EmptyString.

(** [f"{s:w}"]: the text filled with spaces on the right up to width [w]. *)
Definition ljust (w : nat) (s : string) : string :=
  s +:+ str_repeat " " (w - String.length s).

(** [str(v)] for a value that is [None] or a [str]. *)
Definition str_opt (v : option string) : string :=
  match v with
  | Some s => s
  | None => "None"
  end.

(** [sep.join(l)] *)
Fixpoint str_join (sep : string) (l : list string) : string :=
  match l with
  | [] => ""
  | [x] => x
  | x :: rest => x +:+ sep +:+ str_join sep rest
  end.

(** [needle in hay] on strings *)
Definition str_contains (needle hay : string) : bool :=
  match String.index 0 needle hay with
  | Some _ => true
  | None => false
  end.

(** [s[:n]] *)
Definition slice_to (n : nat) (s : string) : string := String.substring 0 n s.

(** [s[-n:]] for [n > 0] *)
Definition slice_last (n : nat) (s : string) : string :=
  String.substring (String.length s - n) n s.

(** Truthiness of a value that is [None] or a [str]. *)
Definition truthy (v : option string) : bool :=
  match v with
  | Some s => negb (String.eqb s "")
  | None => false
  end.

(** The exceptions (all subclasses of [Exception]) the scripts can meet. *)
Inductive exn : Type :=
| KeyError (key : string)
| NameError (name : string)
| AttributeError (msg : string)
| FileNotFoundError (path : string)
| PermissionError (path : string)
| EmptyDataError
| ParserError (msg : string)
| TypeError (msg : string)
| ArrowInvalid (msg : string)
| ArrowTypeError (msg : string)
| ExternalError (msg : string).   (* raised inside third-party code *)

(** [str(e)], as an f-string renders the exception. *)
Definition str_exn (e : exn) : string :=
  match e with
  | KeyError k => "'" +:+ k +:+ "'"
  | NameError n => "name '" +:+ n +:+ "' is not defined"
  | AttributeError m => m
  | FileNotFoundError p => "[Errno 2] No such file or directory: '" +:+ p +:+ "'"
  | PermissionError p => "[Errno 13] Permission denied: '" +:+ p +:+ "'"
  | EmptyDataError => "No columns to parse from file"
  | ParserError m => m
  | TypeError m => m
  | ArrowInvalid m => m
  | ArrowTypeError m => m
  | ExternalError m => m
  end.

Inductive outcome (A : Type) : Type :=
| Return (a : A)
| Raise (e : exn).
Arguments Return {A} a.
Arguments Raise {A} e.

#[global] Instance outcome_ret : MRet outcome := λ A a, Return a.
#[global] Instance outcome_bind : MBind outcome := λ A B f o,
  match o with
  | Return a => f a
  | Raise e => Raise e
  end.

End Py.

(** ** pandas: tables and their CSV form *)

Module Pandas.
Import Py.

(** A cell is carried as the text it has in a CSV file (a missing value,
    NaN, is the empty text); the scripts never compute with cells.  What
    pandas holds for a cell is told at the end of this module. *)
Abbreviation cell := string.

(** A [DataFrame] without its index: the column labels in order and the
    records in order.  pandas keeps every record as wide as the labels. *)
Record DataFrame : Type := mkFrame {
  df_columns : list string;
  df_data : list (list cell)
}.

Definition df_wf (df : DataFrame) : Prop :=
  Forall (fun r => length r = length (df_columns df)) (df_data df).

(** [len(df)] *)
Definition df_len (df : DataFrame) : nat := length (df_data df).

(** [df.shape] *)
Definition df_shape (df : DataFrame) : nat * nat :=
  (length (df_data df), length (df_columns df)).

(** [df.empty]: some axis has length 0. *)
Definition df_empty (df : DataFrame) : bool :=
  match df_columns df, df_data df with
  | _ :: _, _ :: _ => false
  | _, _ => true
  end.

(** [key in df]: membership in the column labels. *)
Definition df_contains (key : string) (df : DataFrame) : bool :=
  bool_decide (key ∈ df_columns df).

(** Positions of a label among the column labels. *)
Fixpoint positions (name : string) (cols : list string) (i : nat) : list nat :=
  match cols with
  | [] => []
  | c :: rest =>
      if String.eqb c name then i :: positions name rest (S i)
      else positions name rest (S i)
  end.

Definition cell_at (i : nat) (r : list cell) : cell := nth i r "".

(** What [df[name]] selects: a [Series] when the label is unique, a
    sub-frame when it is repeated. *)
Inductive selection : Type :=
| Series (values : list cell)
| Frame (sub : DataFrame).

(** [df[name]] *)
Definition getitem (df : DataFrame) (name : string) : outcome selection :=
  match positions name (df_columns df) 0 with
  | [] => Raise (KeyError name)
  | [i] => Return (Series (map (cell_at i) (df_data df)))
  | ps =>
      Return (Frame (mkFrame (map (fun _ => name) ps)
                             (map (fun r => map (fun i => cell_at i r) ps)
                                  (df_data df))))
  end.

(** [.tolist()]: a method of [Series], not of [DataFrame]. *)
Definition tolist (s : selection) : outcome (list cell) :=
  match s with
  | Series v => Return v
  | Frame _ => Raise (AttributeError "'DataFrame' object has no attribute 'tolist'")
  end.

(** Values in order of first appearance. *)
Fixpoint dedup_cells (seen : list cell) (l : list cell) : list cell :=
  match l with
  | [] => []
  | x :: rest =>
      if bool_decide (x ∈ seen) then dedup_cells seen rest
      else x :: dedup_cells (x :: seen) rest
  end.

(** [.unique()]: again a method of [Series] only. *)
Definition unique (s : selection) : outcome selection :=
  match s with
  | Series v => Return (Series (dedup_cells [] v))
  | Frame _ => Raise (AttributeError "'DataFrame' object has no attribute 'unique'")
  end.

(** *** Writing: [csv.writer] with pandas' defaults

    Delimiter [,], quote character 34, [QUOTE_MINIMAL], [doublequote],
    line terminator LF. *)

Definition comma : ascii := ","%char.
Definition dquote : ascii := "034"%char.
Definition LF : ascii := "010"%char.
Definition CR : ascii := "013"%char.
Definition space : ascii := " "%char.
Definition tab : ascii := "009"%char.

Definition is_char (a c : ascii) : bool := Ascii.eqb c a.

(** Characters that force a field into quotes. *)
Definition special (c : ascii) : bool :=
  is_char comma c || is_char dquote c || is_char LF c || is_char CR c.

Fixpoint has_special (f : string) : bool :=
  match f with
  | EmptyString => false
  | String c rest => special c || has_special rest
  end.

(** The field with every quote character doubled. *)
Fixpoint double_quotes (f : string) : string :=
  match f with
  | EmptyString => EmptyString
  | String c rest =>
      if is_char dquote c then String dquote (String dquote (double_quotes rest))
      else String c (double_quotes rest)
  end.

Definition quoted (f : string) : string :=
  String dquote (double_quotes f +:+ String dquote EmptyString).

Definition write_field (f : string) : string :=
  if has_special f then quoted f else f.

Fixpoint write_fields (r : list string) : string :=
  match r with
  | [] => EmptyString
  | [f] => write_field f
  | f :: rest => write_field f +:+ String comma (write_fields rest)
  end.

(** [writer.writerow(r)]: a record that would be written as the empty line
    (one empty field) is written as a pair of quotes instead. *)
Definition writerow (r : list string) : string :=
  match r with
  | [f] => (if String.eqb f EmptyString then quoted f else write_field f)
           +:+ String LF EmptyString
  | _ => write_fields r +:+ String LF EmptyString
  end.

Fixpoint writerows (rs : list (list string)) : string :=
  match rs with
  | [] => EmptyString
  | r :: rest => writerow r +:+ writerows rest
  end.

(** The text [df.to_csv(path, index=False)] writes: the labels, then the
    records. *)
Definition to_csv_text (df : DataFrame) : string :=
  writerows (df_columns df :: df_data df).

(** *** Reading: the tokenizer of [read_csv] with its defaults

    The states of the C tokenizer, for [delimiter=','], [quotechar] 34,
    [doublequote=True], [skip_blank_lines=True], no escape or comment
    character.  A carriage return outside quotes ends a line. *)

Inductive pstate : Type :=
| START_RECORD
| START_FIELD
| IN_FIELD
| IN_QUOTED_FIELD
| QUOTE_IN_QUOTED_FIELD
| EAT_CRNL
| EAT_CRNL_NOP
| WHITESPACE_LINE.

Record parser : Type := mkParser {
  state : pstate;
  field : string;               (* characters of the field being read *)
  line : list string;           (* fields of the line being read *)
  lines : list (list string)    (* lines read so far *)
}.

Definition goto (s : pstate) (p : parser) : parser :=
  mkParser s (field p) (line p) (lines p).

Definition push_char (c : ascii) (p : parser) : parser :=
  mkParser (state p) (field p +:+ String c EmptyString) (line p) (lines p).

Definition end_field (p : parser) : parser :=
  mkParser (state p) EmptyString (line p ++ [field p]) (lines p).

Definition end_line (p : parser) : parser :=
  mkParser START_RECORD (field p) [] (lines p ++ [line p]).

Definition drop_field (p : parser) : parser :=
  mkParser (state p) EmptyString (line p) (lines p).

Definition is_blank (c : ascii) : bool := is_char space c || is_char tab c.

Definition step_start_field (c : ascii) (p : parser) : parser :=
  if is_char LF c then end_line (end_field p)
  else if is_char CR c then goto EAT_CRNL (end_field p)
  else if is_char dquote c then goto IN_QUOTED_FIELD p
  else if is_char comma c then goto START_FIELD (end_field p)
  else goto IN_FIELD (push_char c p).

Definition step_in_field (c : ascii) (p : parser) : parser :=
  if is_char LF c then end_line (end_field p)
  else if is_char CR c then goto EAT_CRNL (end_field p)
  else if is_char comma c then goto START_FIELD (end_field p)
  else goto IN_FIELD (push_char c p).

(** An empty line is skipped; a line that opens with a blank is held back
    (here: in [field]) until it shows a character that is not blank. *)
Definition step_start_record (c : ascii) (p : parser) : parser :=
  if is_char LF c then goto START_RECORD p
  else if is_char CR c then goto EAT_CRNL_NOP p
  else if is_blank c then goto WHITESPACE_LINE (push_char c p)
  else step_start_field c p.

(** A line of blanks only is skipped; otherwise the tokenizer goes back to
    the start of the line, where the blanks open an unquoted field. *)
Definition step_whitespace_line (c : ascii) (p : parser) : parser :=
  if is_char LF c then goto START_RECORD (drop_field p)
  else if is_char CR c then goto EAT_CRNL_NOP (drop_field p)
  else if is_blank c then push_char c p
  else step_in_field c p.

Definition step_in_quoted_field (c : ascii) (p : parser) : parser :=
  if is_char dquote c then goto QUOTE_IN_QUOTED_FIELD p
  else push_char c p.

Definition step_quote_in_quoted_field (c : ascii) (p : parser) : parser :=
  if is_char dquote c then goto IN_QUOTED_FIELD (push_char c p)
  else if is_char comma c then goto START_FIELD (end_field p)
  else if is_char LF c then end_line (end_field p)
  else if is_char CR c then goto EAT_CRNL (end_field p)
  else goto IN_FIELD (push_char c p).

Definition step_eat_crnl (c : ascii) (p : parser) : parser :=
  if is_char LF c then end_line p
  else if is_char comma c then goto START_FIELD (end_field (end_line p))
  else step_start_record c (end_line p).

Definition step_eat_crnl_nop (c : ascii) (p : parser) : parser :=
  if is_char LF c || is_char comma c then goto START_RECORD p
  else step_start_record c (goto START_RECORD p).

Definition step (c : ascii) (p : parser) : parser :=
  match state p with
  | START_RECORD => step_start_record c p
  | START_FIELD => step_start_field c p
  | IN_FIELD => step_in_field c p
  | IN_QUOTED_FIELD => step_in_quoted_field c p
  | QUOTE_IN_QUOTED_FIELD => step_quote_in_quoted_field c p
  | EAT_CRNL => step_eat_crnl c p
  | EAT_CRNL_NOP => step_eat_crnl_nop c p
  | WHITESPACE_LINE => step_whitespace_line c p
  end.

Fixpoint tokenize_bytes (p : parser) (text : string) : parser :=
  match text with
  | EmptyString => p
  | String c rest => tokenize_bytes (step c p) rest
  end.

Definition handle_eof (p : parser) : outcome (list (list string)) :=
  match state p with
  | START_RECORD | WHITESPACE_LINE | EAT_CRNL_NOP => Return (lines p)
  | IN_QUOTED_FIELD => Raise (ParserError "Error tokenizing data. C error: EOF inside string")
  | IN_FIELD | START_FIELD | QUOTE_IN_QUOTED_FIELD =>
      Return (lines (end_line (end_field p)))
  | EAT_CRNL => Return (lines (end_line p))
  end.

(** A UTF-8 byte order mark at the very start of the text is skipped. *)
Definition strip_bom (text : string) : string :=
  match text with
  | String a (String b (String c rest)) =>
      if is_char "239"%char a && is_char "187"%char b && is_char "191"%char c
      then rest else text
  | _ => text
  end.

Definition tokenize (text : string) : outcome (list (list string)) :=
  handle_eof (tokenize_bytes (mkParser START_RECORD EmptyString [] []) (strip_bom text)).

(** *** Reading: from lines to a table *)

(** An empty label in the header becomes [Unnamed: i]. *)
Fixpoint name_unnamed (i : nat) (header : list string) : list string :=
  match header with
  | [] => []
  | c :: rest =>
      (if String.eqb c EmptyString then "Unnamed: " +:+ pretty i else c)
      :: name_unnamed (S i) rest
  end.

(** A label met before is renamed [label.k]; the loop of pandas goes on
    while the new label is taken too, which it can be once for each label
    counted so far at most: that many rounds are given as [fuel]. *)
Fixpoint rename_dup (fuel : nat) (col : string) (counts : gmap string nat)
  : string * gmap string nat :=
  match counts !! col with
  | Some (S k) =>
      match fuel with
      | O => (col, counts)
      | S f => rename_dup f (col +:+ "." +:+ pretty (S k)) (<[col := S (S k)]> counts)
      end
  | _ => (col, counts)
  end.

Fixpoint dedup_names (counts : gmap string nat) (names : list string) : list string :=
  match names with
  | [] => []
  | col :: rest =>
      let '(col', counts') := rename_dup (S (size counts)) col counts in
      col' :: dedup_names (<[col' := 1]> counts') rest
  end.

(** A short record is filled up with missing cells. *)
Definition pad (w : nat) (r : list cell) : list cell :=
  r ++ repeat EmptyString (w - length r).

(** Records: the first one may be wider than the header, its leading cells
    are then the index (which [DataFrame] here leaves out); a later record
    wider than that is refused. *)
Fixpoint read_records (w lead : nat) (rs : list (list string))
  : outcome (list (list cell)) :=
  match rs with
  | [] => Return []
  | r :: rest =>
      if (w <? length r)%nat then
        Raise (ParserError ("Error tokenizing data. C error: Expected " +:+ pretty w
                            +:+ " fields, saw " +:+ pretty (length r)))
      else
        match read_records w lead rest with
        | Return out => Return (drop lead (pad w r) :: out)
        | Raise e => Raise e
        end
  end.

(** [pd.read_csv] on the text of a file. *)
Definition read_csv_text (text : string) : outcome DataFrame :=
  match tokenize text with
  | Raise e => Raise e
  | Return [] => Raise EmptyDataError
  | Return (header :: rs) =>
      let n := length header in
      let w := match rs with [] => n | r :: _ => max n (length r) end in
      match read_records w (w - n) rs with
      | Raise e => Raise e
      | Return data => Return (mkFrame (dedup_names ∅ (name_unnamed 0 header)) data)
      end
  end.

(** *** The values behind the cells

    A cell keeps the text of its field.  What pandas holds in its place is
    settled column by column, as [read_csv] does with its defaults: NaN
    for a field that is a marker of a missing value; numbers when all the
    other fields of the column are numbers, booleans when they all are
    booleans, and otherwise the texts themselves. *)

(** The fields [read_csv] takes for a missing value. *)
Definition na_values : list string :=
  [EmptyString; "#N/A"; "#N/A N/A"; "#NA"; "-1.#IND"; "-1.#QNAN"; "-NaN";
   "-nan"; "1.#IND"; "1.#QNAN"; "<NA>"; "N/A"; "NA"; "NULL"; "NaN"; "None";
   "n/a"; "nan"; "null"].

Definition isna (c : cell) : bool := bool_decide (c ∈ na_values).

Definition isspace_ascii (c : ascii) : bool :=
  let n := nat_of_ascii c in
  (n =? 32)%nat || ((9 <=? n)%nat && (n <=? 13)%nat).

Definition isdigit_ascii (c : ascii) : bool :=
  let n := nat_of_ascii c in (48 <=? n)%nat && (n <=? 57)%nat.

Fixpoint skip_spaces (p : list ascii) : list ascii :=
  match p with
  | c :: rest => if isspace_ascii c then skip_spaces rest else p
  | [] => []
  end.

Definition skip_sign (p : list ascii) : list ascii :=
  match p with
  | c :: rest => if (Ascii.eqb c "-" || Ascii.eqb c "+")%bool then rest else p
  | [] => []
  end.

(** The digits at the front: how many, and what follows them. *)
Fixpoint skip_digits (p : list ascii) : nat * list ascii :=
  match p with
  | c :: rest =>
      if isdigit_ascii c
      then let '(n, rest') := skip_digits rest in (S n, rest')
      else (0, p)
  | [] => (0, [])
  end.

(** The tokenizer's reader of a number, as far as it decides whether the
    whole word is one: blanks, a sign, digits, a point and digits (a digit
    at least on one side of the point), an exponent with a digit at least,
    blanks.  (Whether the number fits the machine's integers and doubles
    is not looked at.) *)
Definition xstrtod (word : list ascii) : bool :=
  let p := skip_sign (skip_spaces word) in
  let '(num_digits, p) := skip_digits p in
  let '(num_decimals, p) :=
    match p with
    | c :: rest => if Ascii.eqb c "." then skip_digits rest else (0, p)
    | [] => (0, p)
    end in
  if (num_digits + num_decimals =? 0)%nat then false
  else
    let p :=
      match p with
      | c :: rest =>
          if (Ascii.eqb c "e" || Ascii.eqb c "E")%bool then
            let '(n, rest') := skip_digits (skip_sign rest) in
            if (n =? 0)%nat then p else rest'
          else p
      | [] => p
      end in
    match skip_spaces p with
    | [] => true
    | _ :: _ => false
    end.

Definition tolower_ascii (c : ascii) : ascii :=
  let n := nat_of_ascii c in
  if ((65 <=? n)%nat && (n <=? 90)%nat)%bool then ascii_of_nat (n + 32) else c.

(** The names of the infinities, compared without regard to case. *)
Definition inf_names : list string :=
  ["inf"; "+inf"; "-inf"; "infinity"; "+infinity"; "-infinity"].

Definition is_number (c : cell) : bool :=
  xstrtod (list_ascii_of_string c)
  || bool_decide (string_of_list_ascii (map tolower_ascii (list_ascii_of_string c))
                  ∈ inf_names).

(** [true_values] and [false_values] of the reader. *)
Definition is_bool (c : cell) : bool :=
  bool_decide (c ∈ ["True"; "TRUE"; "true"; "False"; "FALSE"; "false"]).

(** What a column holds besides NaN. *)
Inductive kind : Type :=
| Numbers
| Bools
| Texts.

Definition present (col : list cell) : list cell :=
  List.filter (λ c, negb (isna c)) col.

Definition column_kind (col : list cell) : kind :=
  if forallb is_number (present col) then Numbers
  else if forallb is_bool (present col) then Bools
  else Texts.

End Pandas.

(** ** datasets: the columnar [Dataset] handed to the evaluator *)

Module Datasets.
Import Py Pandas.

(** One record of the evaluation input. *)
Record EvaluationInput : Type := mkInput {
  question : cell;
  answer : cell;
  contexts : list cell;
  ground_truth : cell
}.

(** A [Dataset] with the four columns the evaluation runner builds. *)
Record Dataset : Type := mkDataset {
  col_question : list cell;
  col_answer : list cell;
  col_contexts : list (list cell);
  col_ground_truth : list cell
}.

(** The message of Arrow for a text it cannot take as a number ([repr] of
    the text is written as for a text without quotes and escapes). *)
Definition could_not_convert (col : list cell) : string :=
  "Could not convert '" +:+ default EmptyString (head (present col))
  +:+ "' with type str: tried to convert to double".

(** [pa.array(values)] for the values of a column, as far as it can fail.
    Arrow settles the type on the first value that is not an integer and
    then converts every value to it.  NaN is a float: a text after it is
    refused, and after a text or a boolean NaN is refused.  (A boolean
    after NaN is taken as the number 1 or 0.) *)
Definition pa_array (col : list cell) : outcome unit :=
  match column_kind col, col with
  | Numbers, _ | _, [] => Return tt
  | Bools, c :: _ =>
      if isna c then Return tt
      else if existsb isna col then
        Raise (ArrowInvalid
                 "Could not convert nan with type float: tried to convert to boolean")
      else Return tt
  | Texts, c :: _ =>
      if isna c then Raise (ArrowInvalid (could_not_convert col))
      else if existsb isna col then
        Raise (ArrowTypeError "Expected bytes, got a 'float' object")
      else Return tt
  end.

(** [pa.array] for a column of lists: the type of the items is settled
    over all the lists, a float before anything else. *)
Definition pa_list_array (c : list (list cell)) : outcome unit :=
  let items := concat c in
  match column_kind items with
  | Texts =>
      if existsb isna items then Raise (ArrowInvalid (could_not_convert items))
      else Return tt
  | _ => Return tt
  end.

(** [Dataset.from_dict({'question': q, 'answer': a, 'contexts': c,
    'ground_truth': g})], the values being those of columns of a table:
    each column is made an Arrow array, in this order, and columns of
    different lengths are refused. *)
Definition from_dict (q a : list cell) (c : list (list cell)) (g : list cell)
  : outcome Dataset :=
  pa_array q ;; pa_array a ;; pa_list_array c ;; pa_array g ;;
  if bool_decide (length a = length q ∧ length c = length q ∧ length g = length q)
  then Return (mkDataset q a c g)
  else Raise (ArrowInvalid "Column expected length different from the first column").

(** [dataset.num_rows] and [dataset.shape] *)
Definition num_rows (ds : Dataset) : nat := length (col_question ds).
Definition ds_shape (ds : Dataset) : nat * nat := (num_rows ds, 4).

(** [dataset[i]] *)
Definition ds_row (ds : Dataset) (i : nat) : option EvaluationInput :=
  match col_question ds !! i, col_answer ds !! i,
        col_contexts ds !! i, col_ground_truth ds !! i with
  | Some q, Some a, Some c, Some g => Some (mkInput q a c g)
  | _, _, _, _ => None
  end.

End Datasets.

(** ** The world the scripts run in *)

Module Runtime.
Import Py Pandas Datasets.

(** The metrics of [ragas.metrics] the runner asks for. *)
Inductive metric : Type :=
| answer_relevancy
| answer_correctness
| answer_similarity
| context_recall
| context_precision
| faithfulness.

(** Keyword arguments of the two [langchain_openai] clients; an argument
    that a call site leaves out is [None]. *)
Record client_args : Type := mkArgs {
  api_key : option string;
  api_version : string;
  azure_endpoint : option string;
  deployment : string;
  model : option string;
  temperature : option nat
}.

Inductive client : Type :=
| AzureChatOpenAI (args : client_args)
| AzureOpenAIEmbeddings (args : client_args).

(** What the evaluator returns, as far as the scripts look at it:
    [key in result], and [result.to_pandas()] when it has that method. *)
Record result_obj : Type := mkResult {
  res_contains : string → bool;
  res_to_pandas : option DataFrame
}.

(** Every call that leaves the script: to a client, to the evaluator, to
    the file system. *)
Inductive event : Type :=
| Construct (c : client)
| Invoke (c : client) (prompt : string)
| EmbedQuery (c : client) (text : string)
| Evaluate (ds : Dataset) (metrics : list metric) (llm embeddings : option client)
| PathExists (path : string)
| ReadCsv (path : string)
| WriteCsv (path : string).

Record World : Type := mkWorld {
  environ : gmap string string;   (* os.environ *)
  stdout : list string;           (* one entry for each print *)
  files : gmap string string;     (* text of the files that exist *)
  denied : gset string;           (* paths that cannot be opened for writing *)
  trace : list event
}.

(** The answers of third-party code, and the texts Python and pandas render
    for values this development does not look into. *)
Record Externals : Type := mkExternals {
  ext_construct : client → option exn;
  ext_invoke : client → string → outcome string;
  ext_embed_query : client → string → outcome nat;
  ext_evaluate : gmap string string → Dataset → list metric →
                 option client → option client → outcome result_obj;
  fmt_frame : DataFrame → string;         (* str(df) *)
  fmt_list : list cell → string;          (* str(list) *)
  fmt_mean : list cell → string           (* f"{series.mean():.4f}" *)
}.

(** State and exceptions: a statement takes a world to an outcome and the
    world it leaves, also when it raises. *)
Definition M (A : Type) : Type := World → outcome A * World.

#[global] Instance M_ret : MRet M := λ A a w, (Return a, w).
#[global] Instance M_bind : MBind M := λ A B f m w,
  match m w with
  | (Return a, w') => f a w'
  | (Raise e, w') => (Raise e, w')
  end.

Definition raise {A : Type} (e : exn) : M A := λ w, (Raise e, w).

Definition lift {A : Type} (o : outcome A) : M A := λ w, (o, w).

(** [try: body  except Exception as e: handler(e)] *)
Definition try_except {A : Type} (body : M A) (handler : exn → M A) : M A :=
  λ w, match body w with
       | (Return a, w') => (Return a, w')
       | (Raise e, w') => handler e w'
       end.

Definition set_environ (env : gmap string string) (w : World) : World :=
  mkWorld env (stdout w) (files w) (denied w) (trace w).
Definition put_line (s : string) (w : World) : World :=
  mkWorld (environ w) (stdout w ++ [s]) (files w) (denied w) (trace w).
Definition set_files (fs : gmap string string) (w : World) : World :=
  mkWorld (environ w) (stdout w) fs (denied w) (trace w).
Definition record (ev : event) (w : World) : World :=
  mkWorld (environ w) (stdout w) (files w) (denied w) (trace w ++ [ev]).

(** [print(s)] *)
Definition print (s : string) : M unit := λ w, (Return tt, put_line s w).

(** [os.getenv(k)] and [os.getenv(k, d)] *)
Definition getenv (k : string) : M (option string) :=
  λ w, (Return (environ w !! k), w).
Definition getenv_default (k d : string) : M string :=
  λ w, (Return (default d (environ w !! k)), w).

(** [os.environ.pop(k, None)] *)
Definition environ_pop (k : string) : M unit :=
  λ w, (Return tt, set_environ (delete k (environ w)) w).

(** [os.path.exists(path)] *)
Definition path_exists (path : string) : M bool :=
  λ w, (Return (bool_decide (is_Some (files w !! path))), record (PathExists path) w).

(** [pd.read_csv(path)] *)
Definition read_csv (path : string) : M DataFrame :=
  λ w, (match files w !! path with
        | None => Raise (FileNotFoundError path)
        | Some text => read_csv_text text
        end, record (ReadCsv path) w).

(** [df.to_csv(path, index=False)] *)
Definition to_csv (df : DataFrame) (path : string) : M unit :=
  λ w, if bool_decide (path ∈ denied w)
       then (Raise (PermissionError path), record (WriteCsv path) w)
       else (Return tt, set_files (<[path := to_csv_text df]> (files w))
                                  (record (WriteCsv path) w)).

Section External.
Variable ext : Externals.

(** [AzureChatOpenAI(...)], [AzureOpenAIEmbeddings(...)] *)
Definition construct (c : client) : M client :=
  λ w, (match ext_construct ext c with
        | Some e => Raise e
        | None => Return c
        end, record (Construct c) w).

(** [llm.invoke(prompt).content] *)
Definition invoke (c : client) (prompt : string) : M string :=
  λ w, (ext_invoke ext c prompt, record (Invoke c prompt) w).

(** [len(embeddings.embed_query(text))] *)
Definition embed_query (c : client) (text : string) : M nat :=
  λ w, (ext_embed_query ext c text, record (EmbedQuery c text) w).

(** [evaluate(dataset, metrics=metrics, llm=..., embeddings=...)]; the
    evaluator sees the environment as it is at the call. *)
Definition evaluate (ds : Dataset) (metrics : list metric)
    (llm embeddings : option client) : M result_obj :=
  λ w, (ext_evaluate ext (environ w) ds metrics llm embeddings,
        record (Evaluate ds metrics llm embeddings) w).

End External.

(** [for x in l: body(x)] *)
Fixpoint for_each {A : Type} (l : list A) (body : A → M unit) : M unit :=
  match l with
  | [] => mret tt
  | x :: rest => body x ;; for_each rest body
  end.

(** [[var for var in vars if not os.getenv(var)]] *)
Fixpoint missing_vars_of (vars : list string) : M (list string) :=
  match vars with
  | [] => mret []
  | var :: rest =>
      value ← getenv var;
      others ← missing_vars_of rest;
      mret (if truthy value then others else var :: others)
  end.

(** [(a, b)] as Python prints a pair of integers. *)
Definition fmt_shape (s : nat * nat) : string :=
  "(" +:+ pretty (fst s) +:+ ", " +:+ pretty (snd s) +:+ ")".

End Runtime.

(** ** ragas_evaluation.py *)

Module RagasEvaluation.
Import Py Pandas Datasets Runtime.

(** What a module-level name of the script is bound to. *)
Inductive pyvalue : Type :=
| PyModule (name : string)
| PyClass (name : string)
| PyFunction (name : string)
| PyMetric (m : metric)
| PyAttribute (name : string).

(** The names bound at the top level of [ragas_evaluation.py]: the
    attributes every module has, then what its imports and its [def]s
    bind, in the order of the file. *)
Definition module_globals : list (string * pyvalue) :=
  [ ("__name__", PyAttribute "__name__"); ("__doc__", PyAttribute "__doc__");
    ("__package__", PyAttribute "__package__");
    ("__loader__", PyAttribute "__loader__");
    ("__spec__", PyAttribute "__spec__"); ("__file__", PyAttribute "__file__");
    ("__builtins__", PyAttribute "__builtins__");
    ("pd", PyModule "pandas"); ("np", PyModule "numpy");
    ("List", PyClass "typing.List"); ("Dict", PyClass "typing.Dict");
    ("Any", PyClass "typing.Any");
    ("os", PyModule "os"); ("sys", PyModule "sys");
    ("Dataset", PyClass "datasets.Dataset");
    ("evaluate", PyFunction "ragas.evaluate");
    ("answer_relevancy", PyMetric answer_relevancy);
    ("answer_correctness", PyMetric answer_correctness);
    ("answer_similarity", PyMetric answer_similarity);
    ("context_recall", PyMetric context_recall);
    ("context_precision", PyMetric context_precision);
    ("faithfulness", PyMetric faithfulness);
    ("AzureChatOpenAI", PyClass "langchain_openai.AzureChatOpenAI");
    ("AzureOpenAIEmbeddings", PyClass "langchain_openai.AzureOpenAIEmbeddings");
    ("load_data", PyFunction "load_data");
    ("prepare_ragas_dataset", PyFunction "prepare_ragas_dataset");
    ("evaluate_with_ragas", PyFunction "evaluate_with_ragas");
    ("display_results", PyFunction "display_results");
    ("save_detailed_results", PyFunction "save_detailed_results");
    ("configure_azure_openai", PyFunction "configure_azure_openai");
    ("main", PyFunction "main") ].

(** The functions and constants of Python's [builtins] module, and
    [Exception] with its base.  The module also holds the other exception
    and warning classes, whose names all start with a capital letter; they
    are left out here. *)
Definition builtin_names : list string :=
  [ "abs"; "aiter"; "all"; "anext"; "any"; "ascii"; "bin"; "bool";
    "breakpoint"; "bytearray"; "bytes"; "callable"; "chr"; "classmethod";
    "compile"; "complex"; "delattr"; "dict"; "dir"; "divmod"; "enumerate";
    "eval"; "exec"; "filter"; "float"; "format"; "frozenset"; "getattr";
    "globals"; "hasattr"; "hash"; "help"; "hex"; "id"; "input"; "int";
    "isinstance"; "issubclass"; "iter"; "len"; "list"; "locals"; "map";
    "max"; "memoryview"; "min"; "next"; "object"; "oct"; "open"; "ord";
    "pow"; "print"; "property"; "range"; "repr"; "reversed"; "round";
    "set"; "setattr"; "slice"; "sorted"; "staticmethod"; "str"; "sum";
    "super"; "tuple"; "type"; "vars"; "zip"; "__import__";
    "True"; "False"; "None"; "NotImplemented"; "Ellipsis"; "__debug__";
    "BaseException"; "Exception" ].

(** Reading a name that is not local to the function: the module's
    globals, then the builtins, else [NameError]. *)
Definition load_global (name : string) : M pyvalue :=
  match list_find (λ b, fst b = name) module_globals with
  | Some (_, (_, v)) => mret v
  | None =>
      if bool_decide (name ∈ builtin_names) then mret (PyFunction name)
      else raise (NameError name)
  end.

(** [df.iloc[idx][key]]: none of the values a global name of this script
    can have is a position or a list of positions. *)
Definition iloc_getitem (df : DataFrame) (idx : pyvalue) (key : string)
  : M (list cell) :=
  raise (TypeError "Cannot index by location index with a non-integer key").

(** [a and b] as a condition, for values that are [None] or an object. *)
Definition both {A B : Type} (a : option A) (b : option B) : bool :=
  match a, b with
  | Some _, Some _ => true
  | _, _ => false
  end.

Definition prepare_ragas_dataset (df : DataFrame) : outcome Dataset :=
  questions ← getitem df "question" ≫= tolist;
  answers ← getitem df "answer" ≫= tolist;
  references ← getitem df "reference" ≫= tolist;
  let contexts := map (λ ref, [ref]) references in
  let ground_truths := references in
  from_dict questions answers contexts ground_truths.

Definition save_detailed_results (result_df : option DataFrame)
    (output_path : string) : M unit :=
  match result_df with
  | None => print "No results to save."
  | Some result_df =>
      try_except
        (to_csv result_df output_path ;;
         print ("Detailed results saved to: " +:+ output_path))
        (λ e, print ("Error saving results: " +:+ str_exn e))
  end.

Definition load_data (csv_path : string) : M (option DataFrame) :=
  try_except
    (df ← read_csv csv_path;
     print ("Successfully loaded " +:+ pretty (df_len df)
            +:+ " records from " +:+ csv_path) ;;
     mret (Some df))
    (λ e, print ("Error loading data: " +:+ str_exn e) ;; mret None).

Definition metric_names : list (string * string) :=
  [ ("answer_relevancy", "Answer Relevancy");
    ("answer_correctness", "Answer Correctness");
    ("answer_similarity", "Answer Similarity");
    ("context_recall", "Context Recall");
    ("context_precision", "Context Precision");
    ("faithfulness", "Faithfulness") ].

Definition required_vars : list string :=
  ["AZURE_OPENAI_API_KEY"; "AZURE_OPENAI_ENDPOINT"].

Section Script.
Variable ext : Externals.

(** The list [metrics] of [evaluate_with_ragas]. *)
Definition metrics : list metric :=
  [answer_relevancy; answer_correctness; answer_similarity;
   context_recall; context_precision; faithfulness].

Definition evaluate_with_ragas (dataset : Dataset)
    (azure_llm azure_embeddings : option client) : M (option result_obj) :=
  try_except
    (print "Starting RAGAS evaluation..." ;;
     result ← (if both azure_llm azure_embeddings
               then evaluate ext dataset metrics azure_llm azure_embeddings
               else evaluate ext dataset metrics None None);
     print "RAGAS evaluation completed successfully!" ;;
     mret (Some result))
    (λ e,
     print ("Error during evaluation: " +:+ str_exn e) ;;
     if both azure_llm azure_embeddings then
       print "Attempting fallback to standard OpenAI..." ;;
       try_except
         (environ_pop "OPENAI_API_TYPE" ;;
          environ_pop "OPENAI_API_BASE" ;;
          environ_pop "OPENAI_DEPLOYMENT_NAME" ;;
          environ_pop "OPENAI_EMBEDDING_DEPLOYMENT" ;;
          result ← evaluate ext dataset metrics None None;
          print "RAGAS evaluation completed with fallback OpenAI!" ;;
          mret (Some result))
         (λ fallback_error,
          print ("Fallback evaluation also failed: " +:+ str_exn fallback_error) ;;
          mret None)
     else mret None).

Definition display_results (result : option result_obj) : M unit :=
  match result with
  | None => print "No results to display."
  | Some result =>
      print (nl +:+ str_repeat "=" 60) ;;
      print "RAGAS EVALUATION RESULTS" ;;
      print (str_repeat "=" 60) ;;
      print (nl +:+ "OVERALL METRICS:") ;;
      print (str_repeat "-" 30) ;;
      for_each metric_names (λ '(metric_key, metric_name),
        if res_contains result metric_key then
          match res_to_pandas result with
          | Some result_df =>
              if df_contains metric_key result_df then
                category_indices ← load_global "category_indices";
                category_scores ← iloc_getitem result_df category_indices metric_key;
                print ("  " +:+ ljust 18 metric_name +:+ ": "
                       +:+ fmt_mean ext category_scores)
              else mret tt
          | None => mret tt
          end
        else mret tt)
  end.

Definition configure_azure_openai : M (option (client * client)) :=
  cfg_api_key ← getenv "AZURE_OPENAI_API_KEY";
  cfg_api_version ← getenv_default "AZURE_OPENAI_API_VERSION" "2024-02-01";
  cfg_azure_endpoint ← getenv "AZURE_OPENAI_ENDPOINT";
  cfg_model_deployment ← getenv_default "AZURE_OPENAI_MODEL_DEPLOYMENT" "gpt-4";
  cfg_embedding_deployment ←
    getenv_default "AZURE_OPENAI_EMBEDDING_DEPLOYMENT" "text-embedding-ada-002";
  missing_vars ← missing_vars_of required_vars;
  match missing_vars with
  | _ :: _ =>
      print ("Error: Missing required environment variables: "
             +:+ str_join ", " missing_vars) ;;
      print "Please set the following environment variables:" ;;
      print "  AZURE_OPENAI_API_KEY=your-azure-openai-api-key" ;;
      print "  AZURE_OPENAI_ENDPOINT=https://your-resource.openai.azure.com/" ;;
      print "  AZURE_OPENAI_MODEL_DEPLOYMENT=your-model-deployment-name" ;;
      print "  AZURE_OPENAI_EMBEDDING_DEPLOYMENT=your-embedding-deployment-name" ;;
      mret None
  | [] =>
      try_except
        (azure_llm ← construct ext (AzureChatOpenAI
           (mkArgs cfg_api_key cfg_api_version cfg_azure_endpoint
                   cfg_model_deployment (Some cfg_model_deployment) (Some 0)));
         azure_embeddings ← construct ext (AzureOpenAIEmbeddings
           (mkArgs cfg_api_key cfg_api_version cfg_azure_endpoint
                   cfg_embedding_deployment (Some cfg_embedding_deployment) None));
         print "✓ Azure OpenAI configured successfully" ;;
         print ("  Endpoint: " +:+ str_opt cfg_azure_endpoint) ;;
         print ("  Model: " +:+ cfg_model_deployment) ;;
         print ("  Embedding: " +:+ cfg_embedding_deployment) ;;
         mret (Some (azure_llm, azure_embeddings)))
        (λ e, print ("Error configuring Azure OpenAI: " +:+ str_exn e) ;; mret None)
  end.

(** [sys.argv[1] if len(sys.argv) > 1 else "sample_questions_with_answers.csv"] *)
Definition csv_path_of (argv : list string) : string :=
  match argv with
  | _ :: arg :: _ => arg
  | _ => "sample_questions_with_answers.csv"
  end.

(** [evaluate_with_ragas(...).to_pandas()] *)
Definition to_pandas (r : option result_obj) : M DataFrame :=
  match r with
  | None => raise (AttributeError "'NoneType' object has no attribute 'to_pandas'")
  | Some o =>
      match res_to_pandas o with
      | Some df => mret df
      | None => raise (AttributeError "object has no attribute 'to_pandas'")
      end
  end.

(** [main()], run with [sys.argv = argv]. *)
Definition main (argv : list string) : M unit :=
  let csv_path := csv_path_of argv in
  let output_path := "ragas_evaluation_results.csv" in
  print "RAGAS Evaluation Script with Azure OpenAI" ;;
  print (str_repeat "=" 40) ;;
  print (nl +:+ "Configuring Azure OpenAI...") ;;
  azure_config ← configure_azure_openai;
  '(azure_llm, azure_embeddings) ←
    match azure_config with
    | None =>
        print "Falling back to default OpenAI configuration..." ;;
        mret (@None client, @None client)
    | Some (llm, embeddings) => mret (Some llm, Some embeddings)
    end;
  found ← path_exists csv_path;
  if negb found then
    print ("Error: Input file '" +:+ csv_path +:+ "' not found.")
  else
    df ← load_data csv_path;
    match df with
    | None => mret tt
    | Some df =>
        print ("Data shape: " +:+ fmt_shape (df_shape df)) ;;
        categories ← lift (column ← getitem df "category";
                           values ← unique column;
                           tolist values);
        print ("Categories: " +:+ fmt_list ext categories) ;;
        print (nl +:+ "Preparing dataset for RAGAS evaluation...") ;;
        dataset ← lift (prepare_ragas_dataset df);
        print ("dataset shape: " +:+ fmt_shape (ds_shape dataset)) ;;
        result ← (r ← evaluate_with_ragas dataset azure_llm azure_embeddings;
                  to_pandas r);
        print ("Evaluation result: " +:+ fmt_frame ext result) ;;
        save_detailed_results (Some result) output_path ;;
        print (nl +:+ "Evaluation complete!")
    end.

End Script.

End RagasEvaluation.

(** ** evaluation/test_azure_config.py *)

Module TestAzureConfig.
Import Py Pandas Datasets Runtime.

Definition required_vars : list string :=
  ["AZURE_OPENAI_API_KEY"; "AZURE_OPENAI_ENDPOINT"].

Definition azure_vars : list (string * string) :=
  [ ("AZURE_OPENAI_API_KEY", "Azure OpenAI API Key");
    ("AZURE_OPENAI_ENDPOINT", "Azure OpenAI Endpoint");
    ("AZURE_OPENAI_API_VERSION", "Azure OpenAI API Version");
    ("AZURE_OPENAI_MODEL_DEPLOYMENT", "Azure OpenAI Model Deployment");
    ("AZURE_OPENAI_EMBEDDING_DEPLOYMENT", "Azure OpenAI Embedding Deployment") ].

(** [value[:8] + "..." + value[-4:] if len(value) > 12 else "***"] *)
Definition masked (value : string) : string :=
  if (12 <? String.length value)%nat
  then slice_to 8 value +:+ "..." +:+ slice_last 4 value
  else "***".

(** The body of the loop over [azure_vars.items()]. *)
Definition report_variable (item : string * string) : M unit :=
  let '(var, description) := item in
  value ← getenv var;
  if truthy value then
    if str_contains "API_KEY" var then
      let masked_value := masked (default "" value) in
      print ("✅ " +:+ description +:+ ": " +:+ masked_value)
    else
      print ("✅ " +:+ description +:+ ": " +:+ default "" value)
  else
    print ("❌ " +:+ description +:+ ": Not set").

Definition test_environment_variables : M unit :=
  print (nl +:+ str_repeat "=" 40) ;;
  print "Environment Variables Check" ;;
  print (str_repeat "=" 40) ;;
  for_each azure_vars report_variable ;;
  openai_key ← getenv "OPENAI_API_KEY";
  if truthy openai_key then
    let masked_key := masked (default "" openai_key) in
    print ("✅ OpenAI API Key (fallback): " +:+ masked_key)
  else
    print "⚠️ OpenAI API Key (fallback): Not set".

Section Script.
Variable ext : Externals.

Definition test_azure_openai_config : M bool :=
  print "Testing Azure OpenAI Configuration" ;;
  print (str_repeat "=" 40) ;;
  missing_vars ← missing_vars_of required_vars;
  match missing_vars with
  | _ :: _ =>
      print ("❌ Missing required environment variables: "
             +:+ str_join ", " missing_vars) ;;
      mret false
  | [] =>
      print "Configuration:" ;;
      endpoint ← getenv "AZURE_OPENAI_ENDPOINT";
      print ("  Endpoint: " +:+ str_opt endpoint) ;;
      version ← getenv_default "AZURE_OPENAI_API_VERSION" "2024-02-01";
      print ("  API Version: " +:+ version) ;;
      model_deployment ← getenv_default "AZURE_OPENAI_MODEL_DEPLOYMENT" "gpt-4";
      print ("  Model Deployment: " +:+ model_deployment) ;;
      embedding_deployment ←
        getenv_default "AZURE_OPENAI_EMBEDDING_DEPLOYMENT" "text-embedding-ada-002";
      print ("  Embedding Deployment: " +:+ embedding_deployment) ;;
      try_except
        (print (nl +:+ "🔄 Testing Azure OpenAI LLM...") ;;
         key ← getenv "AZURE_OPENAI_API_KEY";
         version ← getenv_default "AZURE_OPENAI_API_VERSION" "2024-02-01";
         endpoint ← getenv "AZURE_OPENAI_ENDPOINT";
         name ← getenv_default "AZURE_OPENAI_MODEL_DEPLOYMENT" "gpt-4";
         azure_llm ← construct ext (AzureChatOpenAI
                       (mkArgs key version endpoint name None (Some 0)));
         content ← invoke ext azure_llm "Hello, how are you?";
         print ("✅ LLM Response: " +:+ slice_to 100 content +:+ "...") ;;
         print (nl +:+ "🔄 Testing Azure OpenAI Embeddings...") ;;
         key ← getenv "AZURE_OPENAI_API_KEY";
         version ← getenv_default "AZURE_OPENAI_API_VERSION" "2024-02-01";
         endpoint ← getenv "AZURE_OPENAI_ENDPOINT";
         name ← getenv_default "AZURE_OPENAI_EMBEDDING_DEPLOYMENT" "text-embedding-ada-002";
         azure_embeddings ← construct ext (AzureOpenAIEmbeddings
                              (mkArgs key version endpoint name None None));
         dimension ← embed_query ext azure_embeddings "Hello world";
         print ("✅ Embedding dimension: " +:+ pretty dimension) ;;
         print (nl +:+ "✅ Azure OpenAI configuration test passed!") ;;
         mret true)
        (λ e,
         print (nl +:+ "❌ Azure OpenAI configuration test failed: " +:+ str_exn e) ;;
         mret false)
  end.

Definition main : M unit :=
  test_environment_variables ;;
  success ← test_azure_openai_config;
  if (success : bool) then
    print (nl +:+ "🎉 All tests passed! Ready to run RAGAS evaluation.")
  else
    print (nl +:+ "💡 Please check your Azure OpenAI configuration.") ;;
    print "   Make sure the following environment variables are set:" ;;
    print "   - AZURE_OPENAI_API_KEY" ;;
    print "   - AZURE_OPENAI_ENDPOINT" ;;
    print "   - AZURE_OPENAI_MODEL_DEPLOYMENT" ;;
    print "   - AZURE_OPENAI_EMBEDDING_DEPLOYMENT".

End Script.

End TestAzureConfig.

(** * Properties *)

(** Running a statement on a world: the combinators and the primitive
    statements are unfolded and the run is computed as far as it goes. *)
Ltac run_script :=
  repeat (cbn;
          unfold mbind, mret, Runtime.M_bind, Runtime.M_ret,
                 Runtime.try_except, Runtime.raise, Runtime.lift,
                 Runtime.print, Runtime.getenv, Runtime.getenv_default,
                 Runtime.environ_pop, Runtime.path_exists, Runtime.read_csv,
                 Runtime.to_csv, Runtime.construct, Runtime.invoke,
                 Runtime.embed_query, Runtime.evaluate);
  cbn.

(** ** Strings *)

Module StringFacts.

Lemma append_nil (t : string) : EmptyString +:+ t = t.
Proof. reflexivity. Qed.

Lemma append_cons (c : ascii) (s t : string) :
  String c s +:+ t = String c (s +:+ t).
Proof. reflexivity. Qed.

Lemma append_nil_r (s : string) : s +:+ EmptyString = s.
Proof. induction s as [|c s IH]; [done|]. by rewrite append_cons, IH. Qed.

Lemma append_assoc (s t u : string) : (s +:+ t) +:+ u = s +:+ (t +:+ u).
Proof.
  induction s as [|c s IH]; [done|]. by rewrite !append_cons, IH.
Qed.

Lemma length_list_ascii (s : string) :
  length (list_ascii_of_string s) = String.length s.
Proof. induction s as [|c s IH]; cbn; [done|by rewrite IH]. Qed.

Lemma substring_take_drop (k n : nat) (s : string) :
  String.substring k n s
  = string_of_list_ascii (take n (drop k (list_ascii_of_string s))).
Proof.
  revert k n. induction s as [|c s IH]; intros k n.
  - by destruct k, n.
  - destruct k as [|k]; cbn.
    + destruct n as [|n]; [done|]. cbn. f_equal.
      by rewrite (IH 0 n), drop_0.
    + apply IH.
Qed.

Lemma string_of_list_ascii_inj (a b : list ascii) :
  string_of_list_ascii a = string_of_list_ascii b ↔ a = b.
Proof.
  split; [|by intros ->]. intros Hab.
  by rewrite <- (list_ascii_of_string_of_list_ascii a), Hab,
             list_ascii_of_string_of_list_ascii.
Qed.

Lemma string_of_list_ascii_app (a b : list ascii) :
  string_of_list_ascii a +:+ string_of_list_ascii b
  = string_of_list_ascii (a ++ b).
Proof.
  induction a as [|x a IH]; [done|]. cbn. by rewrite append_cons, IH.
Qed.

End StringFacts.

(** ** The dataset preparer *)

Module PreparerSpec.
Import Py Pandas Datasets Runtime RagasEvaluation.

(** A record of the table read by label, as the dictionary from the column
    labels to the cells of the record. *)
Definition record_of (df : DataFrame) (r : list cell) : gmap string cell :=
  list_to_map (zip (df_columns df) r).

Definition qa_field (df : DataFrame) (r : list cell) (name : string) : cell :=
  default "" (record_of df r !! name).

(** The columns the preparer reads, and the columns of the input format. *)
Definition prepared_columns : list string := ["question"; "answer"; "reference"].
Definition qa_columns : list string := prepared_columns ++ ["category"].

Lemma positions_absent name cols i :
  name ∉ cols → positions name cols i = [].
Proof.
  revert i. induction cols as [|c cols IH]; intros i Hn; [done|].
  cbn. apply not_elem_of_cons in Hn as [Hne Hn].
  destruct (String.eqb_spec c name) as [->|_]; [done|]. by apply IH.
Qed.

Lemma positions_unique name cols i :
  NoDup cols → name ∈ cols →
  ∃ k, cols !! k = Some name ∧ positions name cols i = [i + k].
Proof.
  revert i. induction cols as [|c cols IH]; intros i Hnd Hin.
  - by apply elem_of_nil in Hin.
  - apply NoDup_cons in Hnd as [Hc Hnd]. cbn.
    destruct (String.eqb_spec c name) as [->|Hne].
    + exists 0. split; [done|]. rewrite positions_absent by done.
      by rewrite Nat.add_0_r.
    + apply elem_of_cons in Hin as [->|Hin]; [done|].
      destruct (IH (S i) Hnd Hin) as (k & Hk & ->).
      exists (S k). split; [done|]. f_equal. lia.
Qed.

Lemma getitem_column df name :
  NoDup (df_columns df) → name ∈ df_columns df →
  ∃ k, df_columns df !! k = Some name
     ∧ getitem df name = Return (Series (map (cell_at k) (df_data df))).
Proof.
  intros Hnd Hin. destruct (positions_unique name _ 0 Hnd Hin) as (k & Hk & Hp).
  exists k. split; [done|]. unfold getitem. by rewrite Hp.
Qed.

Lemma getitem_absent df name :
  name ∉ df_columns df → getitem df name = Raise (KeyError name).
Proof. intros Hn. unfold getitem. by rewrite positions_absent. Qed.

(** [df[name].tolist()] either raises or gives one cell for each record. *)
Lemma column_tolist_cases df name :
  (∃ e, getitem df name ≫= tolist = Raise e) ∨
  (∃ v, getitem df name ≫= tolist = Return v ∧ length v = length (df_data df)).
Proof.
  unfold getitem. destruct (positions name (df_columns df) 0) as [|i [|j ps]].
  - left. by eexists.
  - right. eexists. split; [done|]. by rewrite length_map.
  - left. by eexists.
Qed.

Lemma record_of_lookup df r k name :
  NoDup (df_columns df) → length r = length (df_columns df) →
  df_columns df !! k = Some name →
  qa_field df r name = cell_at k r.
Proof.
  intros Hnd Hlen Hk. unfold qa_field, record_of, cell_at.
  destruct (lookup_lt_is_Some_2 r k) as [v Hv].
  { rewrite Hlen. by eapply lookup_lt_Some. }
  rewrite (nth_lookup_Some _ _ _ _ Hv).
  erewrite (elem_of_list_to_map_1 _ name v); [done| |].
  - by rewrite fst_zip by lia.
  - apply list_elem_of_lookup. exists k.
    by rewrite lookup_zip_with, Hk; simpl; rewrite Hv.
Qed.

Lemma record_of_cell df r k name :
  NoDup (df_columns df) → length r = length (df_columns df) →
  df_columns df !! k = Some name →
  record_of df r !! name = Some (cell_at k r).
Proof.
  intros Hnd Hlen Hk. unfold record_of, cell_at.
  destruct (lookup_lt_is_Some_2 r k) as [v Hv].
  { rewrite Hlen. by eapply lookup_lt_Some. }
  rewrite (nth_lookup_Some _ _ _ _ Hv).
  apply elem_of_list_to_map_1.
  - by rewrite fst_zip by lia.
  - apply list_elem_of_lookup. exists k.
    by rewrite lookup_zip_with, Hk; simpl; rewrite Hv.
Qed.

(** No record has a missing value in a column the preparer reads. *)
Definition complete_columns (df : DataFrame) : bool :=
  forallb (λ r, forallb (λ name, match record_of df r !! name with
                                 | Some c => negb (isna c)
                                 | None => true
                                 end) prepared_columns)
          (df_data df).

Lemma complete_column df k name :
  df_wf df → NoDup (df_columns df) → df_columns df !! k = Some name →
  name ∈ prepared_columns → complete_columns df = true →
  forallb (λ c, negb (isna c)) (map (cell_at k) (df_data df)) = true.
Proof.
  intros Hwf Hnd Hk Hname. unfold complete_columns, df_wf in *.
  revert Hwf. induction (df_data df) as [|r data IH]; intros Hwf; [done|].
  apply Forall_cons in Hwf as [Hr Hwf]. cbn [forallb map].
  intros [Hhead Htail]%andb_true_iff. rewrite (IH Hwf Htail), andb_true_r.
  pose proof (record_of_cell df r k name Hnd Hr Hk) as Hcell.
  rewrite forallb_forall in Hhead. specialize (Hhead name).
  rewrite Hcell in Hhead. apply Hhead. by apply list_elem_of_In.
Qed.

(** A column without a missing value is of one type for Arrow. *)
Lemma complete_no_nan col :
  forallb (λ c, negb (isna c)) col = true → existsb isna col = false.
Proof.
  induction col as [|c col IH]; [done|]. cbn.
  intros [Hc Hcol]%andb_true_iff. rewrite (IH Hcol).
  by destruct (isna c).
Qed.

Lemma pa_array_complete col :
  forallb (λ c, negb (isna c)) col = true → pa_array col = Return tt.
Proof.
  intros Hcol. unfold pa_array. rewrite (complete_no_nan col Hcol).
  destruct col as [|c col]; [by destruct (column_kind [])|].
  cbn in Hcol. apply andb_true_iff in Hcol as [Hc _].
  destruct (isna c); [done|]. by destruct (column_kind (c :: col)).
Qed.

Lemma concat_singletons (l : list cell) : concat (map (λ ref, [ref]) l) = l.
Proof. induction l as [|x l IH]; [done|]. cbn. by rewrite IH. Qed.

Lemma pa_list_array_complete col :
  forallb (λ c, negb (isna c)) col = true →
  pa_list_array (map (λ ref, [ref]) col) = Return tt.
Proof.
  intros Hcol. unfold pa_list_array. rewrite concat_singletons.
  rewrite (complete_no_nan col Hcol). by destruct (column_kind col).
Qed.

(** What [from_dict] returns, when it returns. *)
Lemma from_dict_returns q a c g ds :
  from_dict q a c g = Return ds →
  ds = mkDataset q a c g
  ∧ length a = length q ∧ length c = length q ∧ length g = length q.
Proof.
  unfold from_dict, mbind, outcome_bind.
  destruct (pa_array q) as [[]|]; [|done].
  destruct (pa_array a) as [[]|]; [|done].
  destruct (pa_list_array c) as [[]|]; [|done].
  destruct (pa_array g) as [[]|]; [|done].
  case_bool_decide as Hlen; [|done]. intros [= <-]. by destruct Hlen as (? & ? & ?).
Qed.

(** The table of the example in the description of the input format. *)
Definition sample_table : DataFrame :=
  mkFrame ["question"; "answer"; "reference"; "category"]
          [ ["What is 2+2?"; "4"; "4"; "math"];
            ["Capital of France?"; "Paris"; "Paris"; "geography"] ].

(** The table of a file in which the first record has no reference. *)
Definition table_with_missing_cell : DataFrame :=
  mkFrame ["question"; "answer"; "reference"; "category"]
          [ ["q1"; "a1"; EmptyString; "c1"];
            ["q2"; "a2"; "r2"; "c2"] ].

(** C1, as it is stated, fails: the table read from a file whose first
    record has an empty reference has the four columns and two records,
    and [prepare_ragas_dataset] raises on it.  The missing reference is
    NaN, a float, and the column of the contexts cannot hold it beside a
    text. *)
Lemma missing_cell_not_prepared :
  read_csv_text ("question,answer,reference,category" +:+ nl
                 +:+ "q1,a1,,c1" +:+ nl +:+ "q2,a2,r2,c2" +:+ nl)
  = Return table_with_missing_cell
  ∧ df_wf table_with_missing_cell
  ∧ NoDup (df_columns table_with_missing_cell)
  ∧ qa_columns ⊆ df_columns table_with_missing_cell
  ∧ df_len table_with_missing_cell = 2
  ∧ ∃ msg, prepare_ragas_dataset table_with_missing_cell
           = Raise (ArrowInvalid msg).
Proof.
  split; [by vm_compute|]. split; [repeat constructor|].
  split; [cbn; compute_done|]. split; [|split; [done|]].
  - unfold qa_columns, prepared_columns. cbn. intros c Hc.
    repeat (apply elem_of_cons in Hc as [->|Hc]; [by repeat constructor|]).
    by apply elem_of_nil in Hc.
  - eexists. by vm_compute.
Qed.

(** C1, amended.  For a table with the four columns question, answer,
    reference and category in which no record has a missing value in the
    columns question, answer and reference, [prepare_ragas_dataset]
    returns a dataset with exactly one record for each record of the
    table, in the same order; the record at position [i] has the question
    and the answer of the table's record [i], [contexts] is the
    one-element list of its reference and [ground_truth] is its
    reference. *)
Theorem prepare_one_input_per_record (df : DataFrame) :
  df_wf df → NoDup (df_columns df) → qa_columns ⊆ df_columns df →
  complete_columns df = true →
  ∃ ds, prepare_ragas_dataset df = Return ds
      ∧ num_rows ds = df_len df
      ∧ ∀ i r, df_data df !! i = Some r →
          ds_row ds i = Some (mkInput (qa_field df r "question")
                                      (qa_field df r "answer")
                                      [qa_field df r "reference"]
                                      (qa_field df r "reference")).
Proof.
  intros Hwf Hnd Hcols Hfull.
  destruct (getitem_column df "question" Hnd) as (kq & Hkq & Hq).
  { apply Hcols. unfold qa_columns, prepared_columns. cbn. repeat constructor. }
  destruct (getitem_column df "answer" Hnd) as (ka & Hka & Ha).
  { apply Hcols. unfold qa_columns, prepared_columns. cbn. repeat constructor. }
  destruct (getitem_column df "reference" Hnd) as (kr & Hkr & Hr).
  { apply Hcols. unfold qa_columns, prepared_columns. cbn. repeat constructor. }
  unfold prepare_ragas_dataset. rewrite Hq, Ha, Hr. cbn.
  assert (Hcq := complete_column df kq "question" Hwf Hnd Hkq
                   ltac:(unfold prepared_columns; repeat constructor) Hfull).
  assert (Hca := complete_column df ka "answer" Hwf Hnd Hka
                   ltac:(unfold prepared_columns; repeat constructor) Hfull).
  assert (Hcr := complete_column df kr "reference" Hwf Hnd Hkr
                   ltac:(unfold prepared_columns; repeat constructor) Hfull).
  unfold from_dict.
  rewrite (pa_array_complete _ Hcq), (pa_array_complete _ Hca),
    (pa_list_array_complete _ Hcr), (pa_array_complete _ Hcr).
  cbn. rewrite bool_decide_eq_true_2 by (rewrite !length_map; done).
  eexists. split; [done|]. split.
  - unfold num_rows, df_len. cbn. by rewrite length_map.
  - intros i r Hi. unfold ds_row. cbn.
    rewrite !list_lookup_fmap, Hi. cbn.
    assert (length r = length (df_columns df)) as Hlen.
    { eapply (proj1 (Forall_lookup _ _) Hwf); done. }
    by rewrite !(record_of_lookup df r _ _ Hnd Hlen) by done.
Qed.

Lemma prepare_one_input_per_record_witness :
  ∃ ds, prepare_ragas_dataset sample_table = Return ds
      ∧ num_rows ds = 2
      ∧ ds_row ds 0 = Some (mkInput "What is 2+2?" "4" ["4"] "4")
      ∧ ds_row ds 1 = Some (mkInput "Capital of France?" "Paris" ["Paris"] "Paris").
Proof.
  destruct (prepare_one_input_per_record sample_table) as (ds & Hds & Hn & Hrow).
  - unfold df_wf. cbn. repeat constructor.
  - cbn. compute_done.
  - unfold qa_columns, prepared_columns. cbn. set_solver.
  - vm_compute. reflexivity.
  - exists ds. split; [exact Hds|]. split; [exact Hn|]. split.
    + exact (Hrow 0 _ eq_refl).
    + exact (Hrow 1 _ eq_refl).
Defined.

(** C5.  For a table with the required columns and no record,
    [prepare_ragas_dataset] returns the dataset without records, and does
    not raise. *)
Theorem prepare_empty_table (df : DataFrame) :
  NoDup (df_columns df) → qa_columns ⊆ df_columns df → df_data df = [] →
  prepare_ragas_dataset df = Return (mkDataset [] [] [] [])
  ∧ num_rows (mkDataset [] [] [] []) = 0.
Proof.
  intros Hnd Hcols Hdata. split; [|done].
  destruct (getitem_column df "question" Hnd) as (kq & Hkq & Hq).
  { apply Hcols. unfold qa_columns, prepared_columns. cbn. repeat constructor. }
  destruct (getitem_column df "answer" Hnd) as (ka & Hka & Ha).
  { apply Hcols. unfold qa_columns, prepared_columns. cbn. repeat constructor. }
  destruct (getitem_column df "reference" Hnd) as (kr & Hkr & Hr).
  { apply Hcols. unfold qa_columns, prepared_columns. cbn. repeat constructor. }
  unfold prepare_ragas_dataset. rewrite Hq, Ha, Hr, Hdata. done.
Qed.

Lemma prepare_empty_table_witness :
  prepare_ragas_dataset (mkFrame ["question"; "answer"; "reference"; "category"] [])
  = Return (mkDataset [] [] [] [])
  ∧ num_rows (mkDataset [] [] [] []) = 0.
Proof.
  apply prepare_empty_table.
  - cbn. compute_done.
  - unfold qa_columns, prepared_columns. cbn. set_solver.
  - reflexivity.
Defined.

(** C4.  For a table that lacks one of the columns question, answer or
    reference, [prepare_ragas_dataset] raises and returns no dataset; when
    the labels of the table are distinct, as those of a table read from a
    CSV file are, what it raises is the [KeyError] of a column that is
    missing. *)
Theorem prepare_missing_column (df : DataFrame) (c : string) :
  c ∈ prepared_columns → c ∉ df_columns df →
  (∃ e, prepare_ragas_dataset df = Raise e)
  ∧ (NoDup (df_columns df) →
     ∃ c', c' ∈ prepared_columns ∧ (c' ∉ df_columns df)
         ∧ prepare_ragas_dataset df = Raise (KeyError c')).
Proof.
  intros Hc Hmiss. unfold prepare_ragas_dataset. split.
  - destruct (column_tolist_cases df "question") as [[e ->]|(q & Hq & _)];
      [by eexists|].
    destruct (column_tolist_cases df "answer") as [[e He]|(a & Ha & _)];
      [rewrite Hq; cbn; rewrite He; by eexists|].
    destruct (column_tolist_cases df "reference") as [[e He]|(r & Hr & _)];
      [rewrite Hq; cbn; rewrite Ha; cbn; rewrite He; by eexists|].
    exfalso. unfold prepared_columns in Hc.
    apply elem_of_cons in Hc as [->|Hc];
      [by rewrite getitem_absent in Hq|].
    apply elem_of_cons in Hc as [->|Hc];
      [by rewrite getitem_absent in Ha|].
    apply elem_of_cons in Hc as [->|Hc];
      [by rewrite getitem_absent in Hr|].
    by apply elem_of_nil in Hc.
  - intros Hnd.
    destruct (decide ("question" ∈ df_columns df)) as [Hq|Hq]; last first.
    { exists "question". rewrite (getitem_absent df "question") by done.
      unfold prepared_columns. split; [repeat constructor|split; [done|reflexivity]]. }
    destruct (getitem_column df _ Hnd Hq) as (kq & _ & ->). cbn.
    destruct (decide ("answer" ∈ df_columns df)) as [Ha|Ha]; last first.
    { exists "answer". rewrite (getitem_absent df "answer") by done.
      unfold prepared_columns. split; [repeat constructor|split; [done|reflexivity]]. }
    destruct (getitem_column df _ Hnd Ha) as (ka & _ & ->). cbn.
    destruct (decide ("reference" ∈ df_columns df)) as [Hr|Hr]; last first.
    { exists "reference". rewrite (getitem_absent df "reference") by done.
      unfold prepared_columns. split; [repeat constructor|split; [done|reflexivity]]. }
    exfalso. unfold prepared_columns in Hc.
    repeat (apply elem_of_cons in Hc as [->|Hc]; [done|]).
    by apply elem_of_nil in Hc.
Qed.

Definition table_without_answer : DataFrame :=
  mkFrame ["question"; "reference"; "category"] [["What is 2+2?"; "4"; "math"]].

Lemma prepare_missing_column_witness :
  (∃ e, prepare_ragas_dataset table_without_answer = Raise e)
  ∧ (NoDup (df_columns table_without_answer) →
     ∃ c', c' ∈ prepared_columns ∧ (c' ∉ df_columns table_without_answer)
         ∧ prepare_ragas_dataset table_without_answer = Raise (KeyError c')).
Proof.
  apply (prepare_missing_column table_without_answer "answer").
  - unfold prepared_columns. repeat constructor.
  - cbn. compute_done.
Defined.

End PreparerSpec.

(** ** The evaluator *)

Module EvaluatorSpec.
Import Py Pandas Datasets Runtime RagasEvaluation.

(** The variables the fallback path pops, in the order of the script. *)
Definition popped_vars : list string :=
  ["OPENAI_API_TYPE"; "OPENAI_API_BASE"; "OPENAI_DEPLOYMENT_NAME";
   "OPENAI_EMBEDDING_DEPLOYMENT"].

(** The environment after the four pops. *)
Definition fallback_environ (env : gmap string string) : gmap string string :=
  foldl (λ e k, delete k e) env popped_vars.

(** What the first call to the evaluator answers: it is made with the
    handles when both were supplied, without them otherwise. *)
Definition first_attempt (ext : Externals) (ds : Dataset)
    (llm emb : option client) (w : World) : outcome result_obj :=
  if both llm emb
  then ext_evaluate ext (environ w) ds metrics llm emb
  else ext_evaluate ext (environ w) ds metrics None None.

(** What the second call answers, made without handles after the pops. *)
Definition second_attempt (ext : Externals) (ds : Dataset) (w : World)
  : outcome result_obj :=
  ext_evaluate ext (fallback_environ (environ w)) ds metrics None None.

Definition some_or_none {A : Type} (o : outcome A) : option A :=
  match o with
  | Return a => Some a
  | Raise _ => None
  end.

Lemma fallback_environ_lookup env k :
  fallback_environ env !! k = if bool_decide (k ∈ popped_vars) then None else env !! k.
Proof.
  unfold fallback_environ, popped_vars. cbn.
  case_bool_decide as Hk.
  - repeat (apply elem_of_cons in Hk as [->|Hk];
            [by repeat first [rewrite lookup_delete_eq | rewrite lookup_delete_ne by done]|]).
    by apply elem_of_nil in Hk.
  - repeat (apply not_elem_of_cons in Hk as [? Hk]).
    by rewrite !lookup_delete_ne by done.
Qed.

(** When the first call raises and both handles were supplied, the run of
    [evaluate_with_ragas] is this one. *)
Lemma evaluate_fallback_run ext ds l e w err :
  first_attempt ext ds (Some l) (Some e) w = Raise err →
  evaluate_with_ragas ext ds (Some l) (Some e) w =
  (Return (some_or_none (second_attempt ext ds w)),
   let w1 := put_line "Attempting fallback to standard OpenAI..."
               (put_line ("Error during evaluation: " +:+ str_exn err)
                  (record (Evaluate ds metrics (Some l) (Some e))
                     (put_line "Starting RAGAS evaluation..." w))) in
   let w2 := record (Evaluate ds metrics None None)
               (set_environ (fallback_environ (environ w)) w1) in
   match second_attempt ext ds w with
   | Return _ => put_line "RAGAS evaluation completed with fallback OpenAI!" w2
   | Raise e2 => put_line ("Fallback evaluation also failed: " +:+ str_exn e2) w2
   end).
Proof.
  unfold first_attempt, second_attempt. cbn. intros Hfirst.
  unfold evaluate_with_ragas. run_script. rewrite Hfirst. run_script.
  unfold fallback_environ. cbn.
  by destruct (ext_evaluate ext _ ds metrics None None).
Qed.

(** When the first call raises and the handles were not both supplied, the
    error is printed and the run ends there. *)
Lemma evaluate_no_fallback_run ext ds llm emb w err :
  both llm emb = false →
  first_attempt ext ds llm emb w = Raise err →
  evaluate_with_ragas ext ds llm emb w =
  (Return None,
   put_line ("Error during evaluation: " +:+ str_exn err)
     (record (Evaluate ds metrics None None)
        (put_line "Starting RAGAS evaluation..." w))).
Proof.
  unfold first_attempt. intros Hboth Hfirst.
  unfold evaluate_with_ragas. rewrite Hboth in *. run_script.
  rewrite Hfirst. by run_script.
Qed.

(** An external evaluator that answers only when it is called without
    handles, and a world to run it in. *)
Definition picky_evaluator (ok : bool) : Externals :=
  mkExternals (λ _, None) (λ _ _, Return "") (λ _ _, Return 0)
    (λ _ _ _ llm _,
       match llm with
       | Some _ => Raise (ExternalError "401 Unauthorized")
       | None => if ok then Return (mkResult (λ _, true) None)
                 else Raise (ExternalError "no API key")
       end)
    (λ _, "") (λ _, "") (λ _, "").

Definition sample_environ : gmap string string :=
  <["OPENAI_API_TYPE" := "azure"]>
    (<["OPENAI_API_KEY" := "sk-0000"]>
       (<["AZURE_OPENAI_ENDPOINT" := "https://example.openai.azure.com/"]> ∅)).

Definition sample_world : World := mkWorld sample_environ [] ∅ ∅ [].

Definition sample_client : client :=
  AzureChatOpenAI (mkArgs None "2024-02-01" None "gpt-4" None None).

Definition empty_dataset : Dataset := mkDataset [] [] [] [].

(** C2.  When the call to the external evaluator raises: with both handles
    supplied, [evaluate_with_ragas] calls the evaluator exactly once more,
    without the handles, and returns the result of that call, or [None]
    when it raises too, and prints how each attempt ended; with the
    handles not both supplied it prints the error and returns [None],
    having called the evaluator once only.  In neither case does it
    raise. *)
Theorem evaluate_failure_handling ext ds llm emb w err :
  first_attempt ext ds llm emb w = Raise err →
  let run := evaluate_with_ragas ext ds llm emb w in
  if both llm emb then
    run.1 = Return (some_or_none (second_attempt ext ds w))
    ∧ trace run.2 = trace w ++ [Evaluate ds metrics llm emb;
                                Evaluate ds metrics None None]
    ∧ stdout run.2 = stdout w ++
        ["Starting RAGAS evaluation...";
         "Error during evaluation: " +:+ str_exn err;
         "Attempting fallback to standard OpenAI...";
         match second_attempt ext ds w with
         | Return _ => "RAGAS evaluation completed with fallback OpenAI!"
         | Raise e2 => "Fallback evaluation also failed: " +:+ str_exn e2
         end]
  else
    run.1 = Return None
    ∧ trace run.2 = trace w ++ [Evaluate ds metrics None None]
    ∧ stdout run.2 = stdout w ++ ["Starting RAGAS evaluation...";
                                  "Error during evaluation: " +:+ str_exn err].
Proof.
  intros Hfirst. destruct (both llm emb) eqn:Hboth; cbn zeta.
  - destruct llm as [l|], emb as [e|]; try discriminate.
    rewrite (evaluate_fallback_run _ _ _ _ _ _ Hfirst).
    split; [done|]. cbn.
    destruct (second_attempt ext ds w); cbn; by rewrite <- !app_assoc.
  - rewrite (evaluate_no_fallback_run _ _ _ _ _ _ Hboth Hfirst). cbn.
    by rewrite <- app_assoc.
Qed.

Lemma evaluate_failure_handling_witness :
  let run := evaluate_with_ragas (picky_evaluator true) empty_dataset
               (Some sample_client) (Some sample_client) sample_world in
  run.1 = Return (some_or_none
                    (second_attempt (picky_evaluator true) empty_dataset sample_world))
  ∧ trace run.2 = trace sample_world
                  ++ [Evaluate empty_dataset metrics (Some sample_client) (Some sample_client);
                      Evaluate empty_dataset metrics None None]
  ∧ stdout run.2 = stdout sample_world ++
      ["Starting RAGAS evaluation...";
       "Error during evaluation: 401 Unauthorized";
       "Attempting fallback to standard OpenAI...";
       "RAGAS evaluation completed with fallback OpenAI!"].
Proof.
  apply (evaluate_failure_handling (picky_evaluator true) empty_dataset
           (Some sample_client) (Some sample_client) sample_world
           (ExternalError "401 Unauthorized")).
  reflexivity.
Defined.

(** C10.  On the fallback path (the first call raised, both handles were
    supplied) the environment [evaluate_with_ragas] leaves is the one it
    found with the four variables [OPENAI_API_TYPE], [OPENAI_API_BASE],
    [OPENAI_DEPLOYMENT_NAME] and [OPENAI_EMBEDDING_DEPLOYMENT] removed:
    these four are unset afterwards, whether or not they were set, and
    every other variable, among them [OPENAI_API_KEY] and every variable
    whose name starts with [AZURE_OPENAI_], has the value it had. *)
Theorem evaluate_fallback_environment ext ds l e w err :
  first_attempt ext ds (Some l) (Some e) w = Raise err →
  let w' := (evaluate_with_ragas ext ds (Some l) (Some e) w).2 in
  (∀ k, k ∈ popped_vars → environ w' !! k = None)
  ∧ (∀ k, k ∉ popped_vars → environ w' !! k = environ w !! k)
  ∧ environ w' !! "OPENAI_API_KEY" = environ w !! "OPENAI_API_KEY"
  ∧ (∀ k, String.prefix "AZURE_OPENAI_" k = true →
          environ w' !! k = environ w !! k).
Proof.
  intros Hfirst. cbn zeta.
  rewrite (evaluate_fallback_run _ _ _ _ _ _ Hfirst).
  assert (∀ k, environ
     (let w1 := put_line "Attempting fallback to standard OpenAI..."
               (put_line ("Error during evaluation: " +:+ str_exn err)
                  (record (Evaluate ds metrics (Some l) (Some e))
                     (put_line "Starting RAGAS evaluation..." w))) in
      let w2 := record (Evaluate ds metrics None None)
               (set_environ (fallback_environ (environ w)) w1) in
      match second_attempt ext ds w with
      | Return _ => put_line "RAGAS evaluation completed with fallback OpenAI!" w2
      | Raise e2 => put_line ("Fallback evaluation also failed: " +:+ str_exn e2) w2
      end) !! k
     = if bool_decide (k ∈ popped_vars) then None else environ w !! k) as Henv.
  { intros k. rewrite <- fallback_environ_lookup.
    by destruct (second_attempt ext ds w). }
  cbn [snd]. repeat split.
  - intros k Hk. by rewrite Henv, bool_decide_eq_true_2.
  - intros k Hk. by rewrite Henv, bool_decide_eq_false_2.
  - by rewrite Henv.
  - intros k Hk. rewrite Henv, bool_decide_eq_false_2; [done|].
    unfold popped_vars. intros Hin.
    repeat (apply elem_of_cons in Hin as [->|Hin]; [discriminate|]).
    by apply elem_of_nil in Hin.
Qed.

Lemma evaluate_fallback_environment_witness :
  let w' := (evaluate_with_ragas (picky_evaluator false) empty_dataset
               (Some sample_client) (Some sample_client) sample_world).2 in
  (∀ k, k ∈ popped_vars → environ w' !! k = None)
  ∧ (∀ k, k ∉ popped_vars → environ w' !! k = environ sample_world !! k)
  ∧ environ w' !! "OPENAI_API_KEY" = environ sample_world !! "OPENAI_API_KEY"
  ∧ (∀ k, String.prefix "AZURE_OPENAI_" k = true →
          environ w' !! k = environ sample_world !! k).
Proof.
  apply (evaluate_fallback_environment (picky_evaluator false) empty_dataset
           sample_client sample_client sample_world
           (ExternalError "401 Unauthorized")).
  reflexivity.
Defined.

End EvaluatorSpec.

(** ** The configuration validator *)

Module ConfigSpec.
Import Py Pandas Datasets Runtime.

(** A world in which nothing is configured, and externals that would
    answer if they were asked. *)
Definition bare_world : World := mkWorld ∅ [] ∅ ∅ [].

Definition willing_externals : Externals :=
  mkExternals (λ _, None) (λ _ _, Return "Hello!") (λ _ _, Return 1536)
    (λ _ _ _ _ _, Return (mkResult (λ _, true) None))
    (λ _, "") (λ _, "") (λ _, "").

(** With both required variables unset, the comprehension finds both
    missing, in the order of [required_vars]. *)
Lemma missing_vars_all_unset w :
  environ w !! "AZURE_OPENAI_API_KEY" = None →
  environ w !! "AZURE_OPENAI_ENDPOINT" = None →
  missing_vars_of ["AZURE_OPENAI_API_KEY"; "AZURE_OPENAI_ENDPOINT"] w
  = (Return ["AZURE_OPENAI_API_KEY"; "AZURE_OPENAI_ENDPOINT"], w).
Proof. intros Hk He. run_script. by rewrite Hk, He. Qed.

(** C3.  With [AZURE_OPENAI_API_KEY] and [AZURE_OPENAI_ENDPOINT] both
    unset, the configuration validator [test_azure_openai_config] prints,
    after its banner, one line that names exactly these two variables, and
    returns [False]; [configure_azure_openai] of the runner prints the
    same list (and its hints) and returns [None].  The list of missing
    variables that is computed is the list of these two.  Neither constructs a
    client nor sends a request: the trace of external calls is the one
    they found, as are the environment and the files. *)
Theorem missing_configuration_reported ext w :
  environ w !! "AZURE_OPENAI_API_KEY" = None →
  environ w !! "AZURE_OPENAI_ENDPOINT" = None →
  let checked := TestAzureConfig.test_azure_openai_config ext w in
  let configured := RagasEvaluation.configure_azure_openai ext w in
  (missing_vars_of TestAzureConfig.required_vars w).1
    = Return ["AZURE_OPENAI_API_KEY"; "AZURE_OPENAI_ENDPOINT"]
  ∧ (checked.1 = Return false
   ∧ stdout checked.2 = stdout w ++
       ["Testing Azure OpenAI Configuration"; str_repeat "=" 40;
        "❌ Missing required environment variables: "
          +:+ str_join ", " TestAzureConfig.required_vars]
   ∧ trace checked.2 = trace w
   ∧ environ checked.2 = environ w ∧ files checked.2 = files w)
  ∧ (configured.1 = Return None
     ∧ stdout configured.2 = stdout w ++
       ["Error: Missing required environment variables: "
          +:+ str_join ", " RagasEvaluation.required_vars;
        "Please set the following environment variables:";
        "  AZURE_OPENAI_API_KEY=your-azure-openai-api-key";
        "  AZURE_OPENAI_ENDPOINT=https://your-resource.openai.azure.com/";
        "  AZURE_OPENAI_MODEL_DEPLOYMENT=your-model-deployment-name";
        "  AZURE_OPENAI_EMBEDDING_DEPLOYMENT=your-embedding-deployment-name"]
     ∧ trace configured.2 = trace w
     ∧ environ configured.2 = environ w ∧ files configured.2 = files w).
Proof.
  intros Hk He. cbn zeta. split; [|split].
  - unfold TestAzureConfig.required_vars.
    by rewrite missing_vars_all_unset.
  - unfold TestAzureConfig.test_azure_openai_config. run_script.
    rewrite Hk, He. run_script. by rewrite <- !app_assoc.
  - unfold RagasEvaluation.configure_azure_openai. run_script.
    rewrite Hk, He. run_script. by rewrite <- !app_assoc.
Qed.

Lemma missing_configuration_reported_witness :
  (TestAzureConfig.test_azure_openai_config willing_externals bare_world).1
  = Return false
  ∧ (RagasEvaluation.configure_azure_openai willing_externals bare_world).1
    = Return None
  ∧ trace (TestAzureConfig.test_azure_openai_config willing_externals bare_world).2 = [].
Proof.
  destruct (missing_configuration_reported willing_externals bare_world)
    as (_ & (Hr & _ & Ht & _) & (Hc & _)); [reflexivity|reflexivity|].
  split; [exact Hr|]. split; [exact Hc|exact Ht].
Defined.

End ConfigSpec.

(** ** The result display *)

Module DisplaySpec.
Import Py Pandas Datasets Runtime RagasEvaluation.

(** The name is bound neither by the module nor by the builtins. *)
Lemma category_indices_unbound :
  ("category_indices" ∉ module_globals.*1) ∧ ("category_indices" ∉ builtin_names).
Proof. split; compute_done. Qed.

(** The loop over the metrics stops with [NameError], having printed
    nothing, at the first metric that passes the three tests. *)
Lemma metrics_loop_raises ext result df (l : list (string * string)) w :
  res_to_pandas result = Some df →
  (∃ key name, (key, name) ∈ l ∧ res_contains result key = true
               ∧ df_contains key df = true) →
  for_each l (λ '(metric_key, metric_name),
    if res_contains result metric_key then
      match res_to_pandas result with
      | Some result_df =>
          if df_contains metric_key result_df then
            category_indices ← load_global "category_indices";
            category_scores ← iloc_getitem result_df category_indices metric_key;
            print ("  " +:+ ljust 18 metric_name +:+ ": "
                   +:+ fmt_mean ext category_scores)
          else mret tt
      | None => mret tt
      end
    else mret tt) w
  = (Raise (NameError "category_indices"), w).
Proof.
  intros Hdf (key & name & Hin & Hkey & Hcol).
  induction l as [|[k n] l IH]; [by apply elem_of_nil in Hin|].
  cbn [for_each]. rewrite Hdf.
  destruct (decide (res_contains result k = true ∧ df_contains k df = true))
    as [[-> ->]|Hno].
  - reflexivity.
  - assert ((key, name) ∈ l) as Hl.
    { apply elem_of_cons in Hin as [[= -> ->]|Hin]; [|done].
      destruct Hno. by split. }
    specialize (IH Hl). rewrite Hdf in IH.
    destruct (res_contains result k); [destruct (df_contains k df)|];
      try (destruct Hno; by split); run_script; exact IH.
Qed.

(** A result with the scores of one metric. *)
Definition faithfulness_result : result_obj :=
  mkResult (λ key, String.eqb key "faithfulness")
           (Some (mkFrame ["faithfulness"] [["0.75"]; ["1.0"]])).

(** C8.  [display_results] reads the name [category_indices], which
    nothing in the program binds.  So for a result that contains one of
    the known metric keys, has [to_pandas] and has that metric among the
    columns of its table, [display_results] ends in [NameError] for that
    name, having printed its headings and no average. *)
Theorem display_results_undefined_name ext result df key name w :
  (key, name) ∈ metric_names →
  res_contains result key = true →
  res_to_pandas result = Some df →
  df_contains key df = true →
  let run := display_results ext (Some result) w in
  run.1 = Raise (NameError "category_indices")
  ∧ stdout run.2 = stdout w ++
      [nl +:+ str_repeat "=" 60; "RAGAS EVALUATION RESULTS"; str_repeat "=" 60;
       nl +:+ "OVERALL METRICS:"; str_repeat "-" 30]
  ∧ ("category_indices" ∉ module_globals.*1)
  ∧ ("category_indices" ∉ builtin_names).
Proof.
  intros Hin Hkey Hdf Hcol. cbn zeta.
  split; [|split; [|exact category_indices_unbound]].
  - unfold display_results.
    unfold mbind at 1 2 3 4 5, M_bind, print. cbn beta iota.
    rewrite (metrics_loop_raises ext result df metric_names) by eauto.
    reflexivity.
  - unfold display_results.
    unfold mbind at 1 2 3 4 5, M_bind, print. cbn beta iota.
    rewrite (metrics_loop_raises ext result df metric_names) by eauto.
    cbn. by rewrite <- !app_assoc.
Qed.

Lemma display_results_undefined_name_witness :
  (display_results ConfigSpec.willing_externals (Some faithfulness_result)
     ConfigSpec.bare_world).1
  = Raise (NameError "category_indices").
Proof.
  apply (display_results_undefined_name ConfigSpec.willing_externals
           faithfulness_result (mkFrame ["faithfulness"] [["0.75"]; ["1.0"]])
           "faithfulness" "Faithfulness" ConfigSpec.bare_world).
  - unfold metric_names. repeat constructor.
  - reflexivity.
  - reflexivity.
  - reflexivity.
Defined.

End DisplaySpec.

(** ** The environment-variable check *)

Module MaskingSpec.
Import Py Pandas Datasets Runtime TestAzureConfig StringFacts.

(** The masked form as the description of the check words it, on the
    list of the characters of the key. *)
Definition first_chars (n : nat) (v : string) : string :=
  string_of_list_ascii (take n (list_ascii_of_string v)).

Definition last_chars (n : nat) (v : string) : string :=
  string_of_list_ascii
    (drop (length (list_ascii_of_string v) - n) (list_ascii_of_string v)).

Definition masked_form (v : string) : string :=
  if (12 <? length (list_ascii_of_string v))%nat
  then first_chars 8 v +:+ "..." +:+ last_chars 4 v
  else "***".

(** The variables whose value is a key. *)
Definition key_vars : list string := ["AZURE_OPENAI_API_KEY"; "OPENAI_API_KEY"].

(** The line the check is to print for a variable: the value, masked when
    the variable holds a key, or that the variable is not set. *)
Definition report_line (env : gmap string string) (entry : string * string) : string :=
  match env !! entry.1 with
  | Some (String c v) =>
      "✅ " +:+ entry.2 +:+ ": " +:+
      (if bool_decide (entry.1 ∈ key_vars) then masked_form (String c v)
       else String c v)
  | _ => "❌ " +:+ entry.2 +:+ ": Not set"
  end.

Definition fallback_line (env : gmap string string) : string :=
  match env !! "OPENAI_API_KEY" with
  | Some (String c v) => "✅ OpenAI API Key (fallback): " +:+ masked_form (String c v)
  | _ => "⚠️ OpenAI API Key (fallback): Not set"
  end.

Lemma masked_is_masked_form (v : string) : masked v = masked_form v.
Proof.
  unfold masked, masked_form, slice_to, slice_last, first_chars, last_chars.
  rewrite length_list_ascii.
  destruct (12 <? String.length v)%nat eqn:Hlen; [|done].
  apply Nat.ltb_lt in Hlen.
  rewrite !substring_take_drop, drop_0.
  do 3 f_equal. apply take_ge. rewrite length_drop, length_list_ascii. lia.
Qed.

(** When the mask gives the key away: the mask of a key is the key itself
    exactly for the key [***] and for the keys of 15 characters that have
    three dots after their first eight characters. *)
Lemma masked_form_fixpoint (v : string) :
  masked_form v = v ↔
  v = "***" ∨ (String.length v = 15 ∧ String.substring 8 3 v = "...").
Proof.
  unfold masked_form, first_chars, last_chars.
  rewrite substring_take_drop, <- (length_list_ascii v).
  pose proof (string_of_list_ascii_of_string v) as Hv.
  set (l := list_ascii_of_string v) in *. clearbody l. subst v.
  change "..." with (string_of_list_ascii (list_ascii_of_string "...")).
  change "***" with (string_of_list_ascii (list_ascii_of_string "***")).
  destruct (12 <? length l)%nat eqn:Hlen.
  - apply Nat.ltb_lt in Hlen.
    rewrite !string_of_list_ascii_app, !string_of_list_ascii_inj. split.
    + intros Heq. right.
      assert (length l = 15) as H15.
      { rewrite <- Heq at 1.
        rewrite !length_app, length_take, length_drop.
        change (length (list_ascii_of_string "...")) with 3. lia. }
      split; [done|].
      rewrite <- Heq at 1.
      rewrite drop_app_length' by (rewrite length_take; lia). done.
    + intros [Habs|[H15 Hdots]].
      { rewrite Habs in Hlen. cbn in Hlen. lia. }
      rewrite <- Hdots, H15.
      rewrite <- (take_drop 8 l) at 4. f_equal.
      rewrite <- (take_drop 3 (drop 8 l)) at 2. f_equal.
      by rewrite drop_drop.
  - apply Nat.ltb_ge in Hlen. rewrite !string_of_list_ascii_inj. split.
    + intros Heq. by left.
    + intros [Heq|[H15 _]]; [done|lia].
Qed.

(** Printing a list of lines, one after the other. *)
Fixpoint put_lines (ls : list string) (w : World) : World :=
  match ls with
  | [] => w
  | s :: rest => put_lines rest (put_line s w)
  end.

Lemma put_lines_stdout ls w : stdout (put_lines ls w) = stdout w ++ ls.
Proof.
  revert w. induction ls as [|s ls IH]; intros w; cbn.
  - by rewrite app_nil_r.
  - rewrite IH. cbn. by rewrite <- app_assoc.
Qed.

Lemma put_lines_environ ls w : environ (put_lines ls w) = environ w.
Proof. revert w. induction ls as [|s ls IH]; intros w; cbn; [done|by rewrite IH]. Qed.

Lemma report_variable_run item w :
  item ∈ azure_vars →
  report_variable item w = (Return tt, put_line (report_line (environ w) item) w).
Proof.
  intros Hin. unfold azure_vars in Hin.
  repeat (apply elem_of_cons in Hin as [->|Hin];
    [unfold report_variable, report_line; run_script;
     destruct (environ w !! _) as [[|c v]|]; try reflexivity;
     cbn; rewrite ?masked_is_masked_form; reflexivity|]).
  by apply elem_of_nil in Hin.
Qed.

Lemma report_loop_run (l : list (string * string)) w :
  l ⊆ azure_vars →
  for_each l report_variable w
  = (Return tt, put_lines (map (report_line (environ w)) l) w).
Proof.
  revert w. induction l as [|item l IH]; intros w Hl; [done|].
  cbn [for_each]. unfold mbind, M_bind.
  rewrite report_variable_run by (apply Hl; constructor).
  rewrite IH by (intros x Hx; apply Hl; by constructor).
  reflexivity.
Qed.

(** A world in which the key is given away by its mask. *)
Definition leaky_key : string := "abcdefgh...ijkl".

Definition leaky_world : World :=
  mkWorld (<["AZURE_OPENAI_API_KEY" := leaky_key]> ∅) [] ∅ ∅ [].

(** C9, as it is stated, fails: the check prints the key
    [abcdefgh...ijkl] in full, its mask being the key itself. *)
Lemma full_key_printed :
  environ leaky_world !! "AZURE_OPENAI_API_KEY" = Some leaky_key
  ∧ (12 < String.length leaky_key)%nat
  ∧ stdout (test_environment_variables leaky_world).2 !! 3
    = Some ("✅ Azure OpenAI API Key: " +:+ leaky_key).
Proof. split; [reflexivity|]. split; [cbn; lia|reflexivity]. Qed.

(** C9, amended.  [test_environment_variables] prints, after its three
    heading lines, one line for each of the five Azure variables and one
    for [OPENAI_API_KEY].  A variable that is set to a value that is not
    empty is shown with its value, and a key ([AZURE_OPENAI_API_KEY],
    [OPENAI_API_KEY]) with the masked form of its value instead: its first
    8 characters, three dots and its last 4 characters when it has more
    than 12 characters, three stars otherwise.  The masked form is the key
    itself only for the key of three stars and for the keys of 15
    characters with three dots after the first eight. *)
Theorem api_keys_printed_masked w :
  let run := test_environment_variables w in
  run.1 = Return tt
  ∧ stdout run.2 = stdout w
      ++ [nl +:+ str_repeat "=" 40; "Environment Variables Check"; str_repeat "=" 40]
      ++ map (report_line (environ w)) azure_vars
      ++ [fallback_line (environ w)]
  ∧ (∀ v, masked_form v = v ↔
          v = "***" ∨ (String.length v = 15 ∧ String.substring 8 3 v = "...")).
Proof.
  cbn zeta. split; [|split; [|exact masked_form_fixpoint]].
  - unfold test_environment_variables.
    unfold mbind at 1 2 3 4, M_bind, print. cbn beta iota.
    rewrite report_loop_run by done. cbn beta iota.
    unfold mbind, M_bind, getenv, print.
    by destruct (truthy _).
  - unfold test_environment_variables.
    unfold mbind at 1 2 3 4, M_bind, print. cbn beta iota.
    rewrite report_loop_run by done. cbn beta iota.
    unfold mbind, M_bind, getenv, print. cbn [environ put_line].
    rewrite put_lines_environ. cbn [environ put_line].
    unfold fallback_line.
    destruct (environ w !! "OPENAI_API_KEY") as [[|c v]|]; cbn [truthy negb String.eqb];
      cbn [snd stdout put_line]; rewrite put_lines_stdout; cbn [stdout put_line];
      rewrite <- ?app_assoc; cbn [app default]; rewrite ?masked_is_masked_form;
      reflexivity.
Qed.

End MaskingSpec.

(** ** Writing a table and reading it back *)

Module CsvSpec.
Import Py Pandas StringFacts.

(** A field of blanks only. *)
Fixpoint all_blank (f : string) : bool :=
  match f with
  | EmptyString => true
  | String c rest => is_blank c && all_blank rest
  end.

(** A record that is written as a line of blanks: [read_csv] skips it. *)
Definition blank_line (r : list string) : bool :=
  match r with
  | [String c f] => all_blank (String c f)
  | _ => false
  end.

(** A text that opens with the first byte of a byte order mark. *)
Definition opens_with_bom_byte (text : string) : bool :=
  match text with
  | String c _ => is_char "239"%char c
  | EmptyString => false
  end.

Abbreviation P := mkParser.

Lemma special_false c :
  special c = false →
  is_char comma c = false ∧ is_char dquote c = false
  ∧ is_char LF c = false ∧ is_char CR c = false.
Proof.
  unfold special. intros H.
  apply orb_false_elim in H as [H Hcr].
  apply orb_false_elim in H as [H Hlf].
  apply orb_false_elim in H as [Hc Hq]. done.
Qed.

Lemma push_assoc (fld : string) (c : ascii) (f : string) :
  (fld +:+ String c EmptyString) +:+ f = fld +:+ String c f.
Proof. by rewrite append_assoc, append_cons, append_nil. Qed.

(** One step of the tokenizer on a character that is not special. *)
Lemma step_in_field_plain c fld ln ls :
  special c = false →
  step c (P IN_FIELD fld ln ls) = P IN_FIELD (fld +:+ String c EmptyString) ln ls.
Proof.
  intros (Hc & Hq & Hlf & Hcr)%special_false.
  unfold step, step_in_field. cbn. by rewrite Hlf, Hcr, Hc.
Qed.

Lemma step_start_field_plain c ln ls :
  special c = false →
  step c (P START_FIELD EmptyString ln ls) = P IN_FIELD (String c EmptyString) ln ls.
Proof.
  intros (Hc & Hq & Hlf & Hcr)%special_false.
  unfold step, step_start_field. cbn. by rewrite Hlf, Hcr, Hq, Hc.
Qed.

(** An unquoted field is read character by character. *)
Lemma plain_in_field f : ∀ fld ln ls rest,
  has_special f = false →
  tokenize_bytes (P IN_FIELD fld ln ls) (f +:+ rest)
  = tokenize_bytes (P IN_FIELD (fld +:+ f) ln ls) rest.
Proof.
  induction f as [|c f IH]; intros fld ln ls rest Hf.
  - by rewrite append_nil, append_nil_r.
  - cbn in Hf. apply orb_false_elim in Hf as [Hc Hf].
    rewrite append_cons. cbn [tokenize_bytes].
    rewrite step_in_field_plain by done.
    rewrite IH by done. by rewrite push_assoc.
Qed.

(** The body of a quoted field: a doubled quote is read as one quote. *)
Lemma quoted_body f : ∀ fld ln ls rest,
  tokenize_bytes (P IN_QUOTED_FIELD fld ln ls) (double_quotes f +:+ rest)
  = tokenize_bytes (P IN_QUOTED_FIELD (fld +:+ f) ln ls) rest.
Proof.
  induction f as [|c f IH]; intros fld ln ls rest.
  - by rewrite append_nil, append_nil_r.
  - cbn [double_quotes]. destruct (is_char dquote c) eqn:Hq.
    + apply Ascii.eqb_eq in Hq. subst c.
      rewrite !append_cons. cbn [tokenize_bytes].
      unfold step at 2. cbn [state]. unfold step_in_quoted_field.
      change (is_char dquote dquote) with true. cbn iota.
      unfold step at 1. cbn [state goto]. unfold step_quote_in_quoted_field.
      change (is_char dquote dquote) with true. cbn iota.
      unfold goto, push_char. cbn [state field line lines].
      rewrite IH. by rewrite push_assoc.
    + rewrite append_cons. cbn [tokenize_bytes].
      unfold step. cbn [state]. unfold step_in_quoted_field. rewrite Hq.
      unfold push_char. cbn [state field line lines].
      rewrite IH. by rewrite push_assoc.
Qed.

(** A quoted field, read from the start of a record or of a field. *)
Lemma quoted_field st f ln ls rest :
  st = START_RECORD ∨ st = START_FIELD →
  tokenize_bytes (P st EmptyString ln ls) (quoted f +:+ rest)
  = tokenize_bytes (P QUOTE_IN_QUOTED_FIELD f ln ls) rest.
Proof.
  intros Hst. unfold quoted. rewrite append_cons. cbn [tokenize_bytes].
  assert (step dquote (P st EmptyString ln ls)
          = P IN_QUOTED_FIELD EmptyString ln ls) as ->.
  { by destruct Hst as [-> | ->]. }
  rewrite append_assoc, quoted_body, append_nil, append_cons, append_nil.
  reflexivity.
Qed.

(** The states in which a field is complete but for its terminator. *)
Inductive field_read : pstate → string → Prop :=
| read_empty : field_read START_FIELD EmptyString
| read_plain f : field_read IN_FIELD f
| read_quoted f : field_read QUOTE_IN_QUOTED_FIELD f.

Lemma comma_ends_field st f ln ls :
  field_read st f →
  step comma (P st f ln ls) = P START_FIELD EmptyString (ln ++ [f]) ls.
Proof. by intros []. Qed.

Lemma newline_ends_line st f ln ls :
  field_read st f →
  step LF (P st f ln ls) = P START_RECORD EmptyString [] (ls ++ [ln ++ [f]]).
Proof. by intros []. Qed.

(** A field, read from the start of a field. *)
Lemma field_from_start_field f ln ls rest :
  ∃ st, field_read st f
      ∧ tokenize_bytes (P START_FIELD EmptyString ln ls) (write_field f +:+ rest)
        = tokenize_bytes (P st f ln ls) rest.
Proof.
  unfold write_field. destruct (has_special f) eqn:Hf.
  - exists QUOTE_IN_QUOTED_FIELD. split; [constructor|].
    apply quoted_field. by right.
  - destruct f as [|c f].
    + exists START_FIELD. split; [constructor|]. by rewrite append_nil.
    + exists IN_FIELD. split; [constructor|].
      cbn in Hf. apply orb_false_elim in Hf as [Hc Hf].
      rewrite append_cons. cbn [tokenize_bytes].
      rewrite step_start_field_plain by done.
      by rewrite plain_in_field.
Qed.

(** The fields of a line after the first, up to the end of the line. *)
Lemma fields_from_start_field r : ∀ ln ls rest,
  r ≠ [] →
  tokenize_bytes (P START_FIELD EmptyString ln ls)
                 (write_fields r +:+ String LF rest)
  = tokenize_bytes (P START_RECORD EmptyString [] (ls ++ [ln ++ r])) rest.
Proof.
  induction r as [|f r IH]; intros ln ls rest Hr; [done|].
  destruct r as [|f' r].
  - cbn [write_fields].
    destruct (field_from_start_field f ln ls (String LF rest)) as (st & Hst & ->).
    cbn [tokenize_bytes]. by rewrite (newline_ends_line _ _ _ _ Hst).
  - change (write_fields (f :: f' :: r))
      with (write_field f +:+ String comma (write_fields (f' :: r))).
    rewrite append_assoc, append_cons.
    destruct (field_from_start_field f ln ls
                (String comma (write_fields (f' :: r) +:+ String LF rest)))
      as (st & Hst & ->).
    cbn [tokenize_bytes]. rewrite (comma_ends_field _ _ _ _ Hst).
    rewrite IH by done. by rewrite <- app_assoc.
Qed.

(** A line that opened with blanks: it stays held back while blanks come,
    and is an unquoted field from the first other character on. *)
Lemma held_back_field f : ∀ fld ln ls rest,
  has_special f = false →
  tokenize_bytes (P WHITESPACE_LINE fld ln ls) (f +:+ rest)
  = tokenize_bytes
      (P (if all_blank f then WHITESPACE_LINE else IN_FIELD) (fld +:+ f) ln ls)
      rest.
Proof.
  induction f as [|c f IH]; intros fld ln ls rest Hf.
  - by rewrite append_nil, append_nil_r.
  - cbn in Hf. apply orb_false_elim in Hf as [Hc Hf].
    rewrite append_cons. cbn [tokenize_bytes all_blank].
    pose proof Hc as (Hcomma & Hq & Hlf & Hcr)%special_false.
    destruct (is_blank c) eqn:Hb; cbn [andb].
    + assert (step c (P WHITESPACE_LINE fld ln ls)
              = P WHITESPACE_LINE (fld +:+ String c EmptyString) ln ls) as ->.
      { unfold step, step_whitespace_line. cbn. by rewrite Hlf, Hcr, Hb. }
      rewrite IH by done. by rewrite push_assoc.
    + assert (step c (P WHITESPACE_LINE fld ln ls)
              = P IN_FIELD (fld +:+ String c EmptyString) ln ls) as ->.
      { unfold step, step_whitespace_line, step_in_field. cbn.
        by rewrite Hlf, Hcr, Hb, Hcomma. }
      rewrite plain_in_field by done. by rewrite push_assoc.
Qed.

(** The states after the first field of a line. *)
Inductive first_field_read : pstate → string → Prop :=
| first_nothing : first_field_read START_RECORD EmptyString
| first_blanks c f : all_blank (String c f) = true →
                     first_field_read WHITESPACE_LINE (String c f)
| first_field st f : field_read st f → first_field_read st f.

Lemma field_from_start_record f ls rest :
  ∃ st, first_field_read st f
      ∧ tokenize_bytes (P START_RECORD EmptyString [] ls) (write_field f +:+ rest)
        = tokenize_bytes (P st f [] ls) rest.
Proof.
  unfold write_field. destruct (has_special f) eqn:Hf.
  - exists QUOTE_IN_QUOTED_FIELD. split; [apply first_field; constructor|].
    apply quoted_field. by left.
  - destruct f as [|c f].
    + exists START_RECORD. split; [constructor|]. by rewrite append_nil.
    + pose proof Hf as Hf'. cbn in Hf. apply orb_false_elim in Hf as [Hc Hf].
      pose proof Hc as (Hcomma & Hq & Hlf & Hcr)%special_false.
      rewrite append_cons. cbn [tokenize_bytes].
      destruct (is_blank c) eqn:Hb.
      * assert (step c (P START_RECORD EmptyString [] ls)
                = P WHITESPACE_LINE (String c EmptyString) [] ls) as ->.
        { unfold step, step_start_record. cbn. by rewrite Hlf, Hcr, Hb. }
        rewrite held_back_field by done. rewrite append_cons, append_nil.
        destruct (all_blank f) eqn:Hall.
        -- exists WHITESPACE_LINE. split; [|done].
           apply first_blanks. cbn. by rewrite Hb, Hall.
        -- exists IN_FIELD. split; [|done]. apply first_field. constructor.
      * assert (step c (P START_RECORD EmptyString [] ls)
                = P IN_FIELD (String c EmptyString) [] ls) as ->.
        { unfold step, step_start_record, step_start_field. cbn.
          by rewrite Hlf, Hcr, Hb, Hq, Hcomma. }
        rewrite plain_in_field by done. rewrite append_cons, append_nil.
        exists IN_FIELD. split; [|done]. apply first_field. constructor.
Qed.

Lemma comma_ends_first_field st f ls :
  first_field_read st f →
  step comma (P st f [] ls) = P START_FIELD EmptyString [f] ls.
Proof.
  intros [|c g Hall|st' g Hst]; [done| |by apply comma_ends_field].
  reflexivity.
Qed.

(** A record, as [writerow] writes it, is read back as it was, unless it
    is written as a line of blanks. *)
Lemma row_round_trip r ls rest :
  r ≠ [] → blank_line r = false →
  tokenize_bytes (P START_RECORD EmptyString [] ls) (writerow r +:+ rest)
  = tokenize_bytes (P START_RECORD EmptyString [] (ls ++ [r])) rest.
Proof.
  intros Hr Hblank. destruct r as [|f [|f' r]]; [done| |].
  - cbn [writerow]. rewrite append_assoc, append_cons, append_nil.
    destruct (String.eqb_spec f EmptyString) as [->|Hne].
    + rewrite quoted_field by (by left). reflexivity.
    + destruct (field_from_start_record f ls (String LF rest)) as (st & Hst & ->).
      cbn [tokenize_bytes]. destruct Hst as [|c g Hall|st g Hst].
      * done.
      * cbn [blank_line] in Hblank. congruence.
      * by rewrite (newline_ends_line _ _ _ _ Hst).
  - change (writerow (f :: f' :: r))
      with ((write_field f +:+ String comma (write_fields (f' :: r)))
            +:+ String LF EmptyString).
    rewrite !append_assoc, !append_cons, append_nil.
    destruct (field_from_start_record f ls
                (String comma (write_fields (f' :: r) +:+ String LF rest)))
      as (st & Hst & ->).
    cbn [tokenize_bytes]. rewrite (comma_ends_first_field _ _ _ Hst).
    by rewrite fields_from_start_field.
Qed.

Lemma rows_round_trip rs : ∀ ls,
  Forall (λ r, r ≠ [] ∧ blank_line r = false) rs →
  tokenize_bytes (P START_RECORD EmptyString [] ls) (writerows rs)
  = P START_RECORD EmptyString [] (ls ++ rs).
Proof.
  induction rs as [|r rs IH]; intros ls Hrs.
  - by rewrite app_nil_r.
  - apply Forall_cons in Hrs as [[Hr Hb] Hrs]. cbn [writerows].
    rewrite row_round_trip by done. rewrite IH by done.
    by rewrite <- app_assoc.
Qed.

(** The first label opens with the first byte of a byte order mark. *)
Definition label_opens_with_bom (cols : list string) : bool :=
  match cols with
  | String c _ :: _ => is_char "239"%char c
  | _ => false
  end.

Lemma strip_bom_id text : opens_with_bom_byte text = false → strip_bom text = text.
Proof.
  destruct text as [|a [|b [|c text]]]; try done.
  cbn. by intros ->.
Qed.

Lemma write_field_first_byte f rest :
  opens_with_bom_byte (write_field f +:+ rest)
  = match f with
    | String c _ => if has_special f then false else is_char "239"%char c
    | EmptyString => opens_with_bom_byte rest
    end.
Proof.
  unfold write_field. destruct f as [|c f]; [done|].
  by destruct (has_special (String c f)).
Qed.

Lemma header_first_byte cols rest :
  label_opens_with_bom cols = false →
  opens_with_bom_byte (writerow cols +:+ rest) = false.
Proof.
  intros Hbom. destruct cols as [|f [|f' cols]]; [done| |].
  - cbn [writerow]. destruct (String.eqb_spec f EmptyString) as [->|Hne]; [done|].
    rewrite append_assoc, write_field_first_byte.
    destruct f as [|c f]; [done|]. cbn in Hbom. rewrite Hbom.
    by destruct (has_special _).
  - change (writerow (f :: f' :: cols))
      with ((write_field f +:+ String comma (write_fields (f' :: cols)))
            +:+ String LF EmptyString).
    rewrite !append_assoc, write_field_first_byte.
    destruct f as [|c f]; [done|]. cbn in Hbom. rewrite Hbom.
    by destruct (has_special _).
Qed.

(** Writing lines and tokenizing the text gives the lines back. *)
Lemma tokenize_writerows hdr rs :
  label_opens_with_bom hdr = false →
  Forall (λ r, r ≠ [] ∧ blank_line r = false) (hdr :: rs) →
  tokenize (writerows (hdr :: rs)) = Return (hdr :: rs).
Proof.
  intros Hbom Hrs. unfold tokenize.
  rewrite strip_bom_id by (cbn [writerows]; by apply header_first_byte).
  by rewrite rows_round_trip.
Qed.

Lemma name_unnamed_id cols : ∀ i,
  EmptyString ∉ cols → name_unnamed i cols = cols.
Proof.
  induction cols as [|c cols IH]; intros i Hne; [done|].
  apply not_elem_of_cons in Hne as [Hc Hne]. cbn.
  destruct (String.eqb_spec c EmptyString) as [->|_]; [done|].
  by rewrite IH.
Qed.

Lemma dedup_names_id names : ∀ counts : gmap string nat,
  NoDup names → (∀ n, n ∈ names → counts !! n = None) →
  dedup_names counts names = names.
Proof.
  induction names as [|col names IH]; intros counts Hnd Hfresh; [done|].
  apply NoDup_cons in Hnd as [Hcol Hnd].
  cbn [dedup_names rename_dup]. rewrite (Hfresh col) by constructor.
  f_equal. apply IH; [done|]. intros n Hn.
  rewrite lookup_insert_ne by (intros ->; done).
  apply Hfresh. by constructor.
Qed.

Lemma read_records_id w data :
  Forall (λ r, length r = w) data → read_records w 0 data = Return data.
Proof.
  induction data as [|r data IH]; intros Hw; [done|].
  apply Forall_cons in Hw as [Hr Hw]. cbn [read_records].
  rewrite IH by done. subst w.
  rewrite Nat.ltb_irrefl. unfold pad.
  rewrite Nat.sub_diag. cbn. by rewrite app_nil_r.
Qed.

(** The tables [to_csv] and [read_csv] take to each other: the labels are
    distinct and none is empty, the first does not open with a byte order
    mark, and no line of the file is made of blanks only (which takes a
    table of one column to happen). *)
Record csv_stable (df : DataFrame) : Prop := mkStable {
  stable_columns : df_columns df ≠ [];
  stable_wf : df_wf df;
  stable_distinct : NoDup (df_columns df);
  stable_named : EmptyString ∉ df_columns df;
  stable_bom : label_opens_with_bom (df_columns df) = false;
  stable_lines : Forall (λ r, blank_line r = false) (df_columns df :: df_data df)
}.

Lemma csv_round_trip df :
  csv_stable df → read_csv_text (to_csv_text df) = Return df.
Proof.
  intros [Hcols Hwf Hnd Hnamed Hbom Hlines].
  unfold read_csv_text, to_csv_text.
  rewrite tokenize_writerows; [|done|].
  - cbn beta iota zeta.
    rewrite name_unnamed_id by done.
    rewrite dedup_names_id by done.
    unfold df_wf in Hwf. destruct df as [cols data].
    cbn [df_columns df_data] in *.
    destruct data as [|r data]; [done|].
    pose proof Hwf as [Hr _]%Forall_cons.
    rewrite Hr, Nat.max_id, Nat.sub_diag.
    by rewrite read_records_id.
  - apply Forall_cons in Hlines as [Hhdr Hlines]. apply Forall_cons. split; [done|].
    unfold df_wf in Hwf. rewrite Forall_forall in *. intros r Hr.
    split; [|by apply Hlines].
    intros ->. specialize (Hwf _ Hr). cbn in Hwf.
    destruct (df_columns df); [done|discriminate].
Qed.

End CsvSpec.

(** ** The result writer *)

Module WriterSpec.
Import Py Pandas Datasets Runtime RagasEvaluation StringFacts CsvSpec.

#[local] Arguments read_csv_text : simpl never.
#[local] Arguments to_csv_text : simpl never.

(** Writing a table that CSV keeps, then loading the file. *)
Lemma save_then_load df path w :
  csv_stable df → path ∉ denied w →
  (save_detailed_results (Some df) path w).1 = Return tt
  ∧ files (save_detailed_results (Some df) path w).2 !! path = Some (to_csv_text df)
  ∧ (load_data path (save_detailed_results (Some df) path w).2).1 = Return (Some df).
Proof.
  intros Hdf Hpath. unfold save_detailed_results, load_data. run_script.
  rewrite bool_decide_eq_false_2 by done. run_script.
  rewrite lookup_insert_eq. rewrite csv_round_trip by done. done.
Qed.

(** The table of an evaluation result: a column for some of the six
    metrics, each at most once, and in every cell the text of a score. *)
Definition metric_keys : list string := metric_names.*1.

Definition is_digit (c : ascii) : bool :=
  (48 <=? nat_of_ascii c)%nat && (nat_of_ascii c <=? 57)%nat.

(** Digits, sign, point and exponent, and the letters of [inf] and [nan]. *)
Definition score_char (c : ascii) : bool :=
  is_digit c || existsb (Ascii.eqb c) (list_ascii_of_string ".-+eEinfaN").

Fixpoint score_text (s : string) : bool :=
  match s with
  | EmptyString => true
  | String c rest => score_char c && score_text rest
  end.

Record evaluation_result (df : DataFrame) : Prop := mkEvaluationResult {
  result_wf : df_wf df;
  result_metrics : df_columns df ⊆ metric_keys;
  result_distinct : NoDup (df_columns df);
  result_scores : Forall (Forall (λ s, score_text s = true)) (df_data df)
}.

Lemma score_char_visible c : score_char c = true → is_blank c = false.
Proof.
  intros Hc. destruct (is_blank c) eqn:Hb; [|done].
  unfold is_blank, is_char in Hb.
  apply orb_true_iff in Hb as [Hb|Hb]; apply Ascii.eqb_eq in Hb; by subst c.
Qed.

Lemma metric_key_cases k :
  k ∈ metric_keys →
  k ≠ EmptyString ∧ label_opens_with_bom [k] = false ∧ blank_line [k] = false.
Proof.
  unfold metric_keys, metric_names. cbn. intros Hk.
  repeat (apply elem_of_cons in Hk as [->|Hk]; [done|]).
  by apply elem_of_nil in Hk.
Qed.

Lemma evaluation_result_stable df :
  evaluation_result df → df_columns df ≠ [] → csv_stable df.
Proof.
  intros [Hwf Hkeys Hnd Hscores] Hcols. split; try done.
  - intros Hin. by destruct (metric_key_cases _ (Hkeys _ Hin)) as [? _].
  - destruct (df_columns df) as [|k cols]; [done|].
    destruct (metric_key_cases k) as (_ & Hbom & _); [|done].
    apply Hkeys. constructor.
  - apply Forall_cons. split.
    + destruct (df_columns df) as [|k [|k' cols]]; [done| |by destruct k].
      destruct (metric_key_cases k) as (_ & _ & Hb); [|done].
      apply Hkeys. constructor.
    + rewrite Forall_forall in *. intros r Hr.
      specialize (Hscores r Hr).
      destruct r as [|[|c s] [|s' r]]; try done.
      apply Forall_cons in Hscores as [Hs _]. cbn in Hs.
      apply andb_true_iff in Hs as [Hc _].
      cbn. by rewrite (score_char_visible c).
Qed.

(** A result with two metrics for two records. *)
Definition sample_result : DataFrame :=
  mkFrame ["answer_relevancy"; "faithfulness"] [["0.9312"; "1.0"]; ["0.5"; "nan"]].

Lemma sample_result_is_result : evaluation_result sample_result.
Proof.
  split.
  - unfold df_wf. cbn. repeat constructor.
  - cbn. compute_done.
  - cbn. compute_done.
  - cbn. repeat constructor.
Defined.

(** C7.  For a table of evaluation results that is not empty, writing it
    with [save_detailed_results] and reading the file back with
    [load_data] gives a table with the same metric columns and as many
    records (the table that was written, in fact), provided the file could
    be written. *)
Theorem saved_results_read_back df path w :
  evaluation_result df → df_empty df = false → path ∉ denied w →
  let saved := save_detailed_results (Some df) path w in
  let loaded := load_data path saved.2 in
  saved.1 = Return tt
  ∧ ∃ back, loaded.1 = Return (Some back)
          ∧ df_columns back = df_columns df
          ∧ df_len back = df_len df
          ∧ back = df.
Proof.
  intros Hdf Hne Hpath. cbn zeta.
  assert (csv_stable df) as Hstable.
  { apply evaluation_result_stable; [done|].
    unfold df_empty in Hne. by destruct (df_columns df). }
  destruct (save_then_load df path w Hstable Hpath) as (Hsave & _ & Hload).
  split; [done|]. by exists df.
Qed.

Lemma saved_results_read_back_witness :
  let saved := save_detailed_results (Some sample_result)
                 "ragas_evaluation_results.csv" ConfigSpec.bare_world in
  let loaded := load_data "ragas_evaluation_results.csv" saved.2 in
  saved.1 = Return tt
  ∧ ∃ back, loaded.1 = Return (Some back)
          ∧ df_columns back = df_columns sample_result
          ∧ df_len back = df_len sample_result
          ∧ back = sample_result.
Proof.
  apply (saved_results_read_back sample_result
           "ragas_evaluation_results.csv" ConfigSpec.bare_world).
  - exact sample_result_is_result.
  - reflexivity.
  - cbn. apply not_elem_of_empty.
Defined.

End WriterSpec.

(** ** What a run leaves untouched *)

Module Frame.
Import Py Pandas Datasets Runtime RagasEvaluation.

(** The events that are calls to third-party code. *)
Definition external_call (ev : event) : Prop :=
  match ev with
  | PathExists _ | ReadCsv _ | WriteCsv _ => False
  | _ => True
  end.

(** A statement keeps a relation between worlds when every run of it takes
    a world to a related one, however the run ends. *)
Definition keeps (R : World → World → Prop) {A : Type} (m : M A) : Prop :=
  ∀ w, R w (m w).2.

Section Keeps.
Variable R : World → World → Prop.
Variable Q : event → Prop.              (* the events a run may add *)
Variable writable : string → Prop.      (* the files a run may write *)
Hypothesis R_refl : ∀ w, R w w.
Hypothesis R_trans : ∀ w1 w2 w3, R w1 w2 → R w2 w3 → R w1 w3.
Hypothesis R_put_line : ∀ s w, R w (put_line s w).
Hypothesis R_set_environ : ∀ env w, R w (set_environ env w).
Hypothesis R_record : ∀ ev w, Q ev → R w (record ev w).
Hypothesis R_write : ∀ p text w,
  writable p → Q (WriteCsv p) →
  R w (set_files (<[p := text]> (files w)) (record (WriteCsv p) w)).
Hypothesis Q_external : ∀ ev, external_call ev → Q ev.

Lemma keeps_ret {A} (a : A) : keeps R (mret a).
Proof. intros w. apply R_refl. Qed.

Lemma keeps_raise {A} (e : exn) : keeps R (@raise A e).
Proof. intros w. apply R_refl. Qed.

Lemma keeps_lift {A} (o : outcome A) : keeps R (lift o).
Proof. intros w. apply R_refl. Qed.

Lemma keeps_bind {A B} (m : M A) (f : A → M B) :
  keeps R m → (∀ a, keeps R (f a)) → keeps R (m ≫= f).
Proof.
  intros Hm Hf w. unfold mbind, M_bind. specialize (Hm w).
  destruct (m w) as [[a|e] w1]; cbn in *; [|done].
  eapply R_trans; [exact Hm|apply Hf].
Qed.

Lemma keeps_try_except {A} (body : M A) (handler : exn → M A) :
  keeps R body → (∀ e, keeps R (handler e)) → keeps R (try_except body handler).
Proof.
  intros Hm Hh w. unfold try_except. specialize (Hm w).
  destruct (body w) as [[a|e] w1]; cbn in *; [done|].
  eapply R_trans; [exact Hm|apply Hh].
Qed.

Lemma keeps_print s : keeps R (print s).
Proof. intros w. apply R_put_line. Qed.

Lemma keeps_getenv k : keeps R (getenv k).
Proof. intros w. apply R_refl. Qed.

Lemma keeps_getenv_default k d : keeps R (getenv_default k d).
Proof. intros w. apply R_refl. Qed.

Lemma keeps_environ_pop k : keeps R (environ_pop k).
Proof. intros w. apply R_set_environ. Qed.

Lemma keeps_construct ext c : keeps R (construct ext c).
Proof. intros w. by apply R_record, Q_external. Qed.

Lemma keeps_evaluate ext ds ms llm emb : keeps R (evaluate ext ds ms llm emb).
Proof. intros w. by apply R_record, Q_external. Qed.

Lemma keeps_read_csv p : Q (ReadCsv p) → keeps R (read_csv p).
Proof. intros Hp w. by apply R_record. Qed.

Lemma keeps_to_csv df p : writable p → Q (WriteCsv p) → keeps R (to_csv df p).
Proof.
  intros Hw Hp w. unfold to_csv. case_bool_decide; cbn.
  - by apply R_record.
  - by apply R_write.
Qed.

Lemma keeps_missing_vars_of vars : keeps R (missing_vars_of vars).
Proof.
  induction vars as [|v vars IH]; [apply keeps_ret|].
  cbn [missing_vars_of]. apply keeps_bind; [apply keeps_getenv|]. intros value.
  apply keeps_bind; [exact IH|]. intros others. apply keeps_ret.
Qed.

End Keeps.

(** The rules above, applied as far as the statement at hand goes. *)
Ltac keeps_step :=
  lazymatch goal with
  | |- keeps _ (mbind _ _) => eapply keeps_bind; [eassumption..| |intros ?]
  | |- keeps _ (mret _) => eapply keeps_ret; eassumption
  | |- keeps _ (raise _) => eapply keeps_raise; eassumption
  | |- keeps _ (lift _) => eapply keeps_lift; eassumption
  | |- keeps _ (try_except _ _) =>
      eapply keeps_try_except; [eassumption..| |intros ?]
  | |- keeps _ (print _) => eapply keeps_print; eassumption
  | |- keeps _ (getenv _) => eapply keeps_getenv; eassumption
  | |- keeps _ (getenv_default _ _) => eapply keeps_getenv_default; eassumption
  | |- keeps _ (environ_pop _) => eapply keeps_environ_pop; eassumption
  | |- keeps _ (construct _ _) => eapply keeps_construct; eassumption
  | |- keeps _ (evaluate _ _ _ _ _) => eapply keeps_evaluate; eassumption
  | |- keeps _ (missing_vars_of _) =>
      eapply keeps_missing_vars_of; eassumption
  | |- keeps _ (match ?x with _ => _ end) => destruct x
  end.

End Frame.

(** ** The entry point of the evaluation runner *)

Module MainSpec.
Import Py Pandas Datasets Runtime RagasEvaluation Frame.

Definition default_csv_path : string := "sample_questions_with_answers.csv".
Definition output_path : string := "ragas_evaluation_results.csv".

Section ScriptFrame.
Variable R : World → World → Prop.
Variable Q : event → Prop.
Variable writable : string → Prop.
Hypothesis R_refl : ∀ w, R w w.
Hypothesis R_trans : ∀ w1 w2 w3, R w1 w2 → R w2 w3 → R w1 w3.
Hypothesis R_put_line : ∀ s w, R w (put_line s w).
Hypothesis R_set_environ : ∀ env w, R w (set_environ env w).
Hypothesis R_record : ∀ ev w, Q ev → R w (record ev w).
Hypothesis R_write : ∀ p text w,
  writable p → Q (WriteCsv p) →
  R w (set_files (<[p := text]> (files w)) (record (WriteCsv p) w)).
Hypothesis Q_external : ∀ ev, external_call ev → Q ev.
Variable ext : Externals.

Lemma keeps_configure : keeps R (configure_azure_openai ext).
Proof. unfold configure_azure_openai. repeat keeps_step. Qed.

Lemma keeps_evaluate_with_ragas ds llm emb :
  keeps R (evaluate_with_ragas ext ds llm emb).
Proof. unfold evaluate_with_ragas. repeat keeps_step. Qed.

Lemma keeps_to_pandas r : keeps R (to_pandas r).
Proof. unfold to_pandas. repeat keeps_step. Qed.

Lemma keeps_load_data p : Q (ReadCsv p) → keeps R (load_data p).
Proof.
  intros Hp. unfold load_data. keeps_step.
  - keeps_step; [by eapply keeps_read_csv|]. repeat keeps_step.
  - repeat keeps_step.
Qed.

Lemma keeps_save_detailed_results df p :
  writable p → Q (WriteCsv p) → keeps R (save_detailed_results df p).
Proof.
  intros Hw Hp. unfold save_detailed_results. keeps_step; [|keeps_step].
  keeps_step.
  - keeps_step; [by eapply keeps_to_csv|]. keeps_step.
  - keeps_step.
Qed.

(** What [main] does once it knows whether the input file exists. *)
Definition after_path_check (argv : list string)
    (azure_llm azure_embeddings : option client) (found : bool) : M unit :=
  let csv_path := csv_path_of argv in
  if negb found then
    print ("Error: Input file '" +:+ csv_path +:+ "' not found.")
  else
    df ← load_data csv_path;
    match df with
    | None => mret tt
    | Some df =>
        print ("Data shape: " +:+ fmt_shape (df_shape df)) ;;
        categories ← lift (column ← getitem df "category";
                           values ← unique column;
                           tolist values);
        print ("Categories: " +:+ fmt_list ext categories) ;;
        print (nl +:+ "Preparing dataset for RAGAS evaluation...") ;;
        dataset ← lift (prepare_ragas_dataset df);
        print ("dataset shape: " +:+ fmt_shape (ds_shape dataset)) ;;
        result ← (r ← evaluate_with_ragas ext dataset azure_llm azure_embeddings;
                  to_pandas r);
        print ("Evaluation result: " +:+ fmt_frame ext result) ;;
        save_detailed_results (Some result) "ragas_evaluation_results.csv" ;;
        print (nl +:+ "Evaluation complete!")
    end.

Lemma keeps_after_path_check argv llm emb found :
  Q (ReadCsv (csv_path_of argv)) →
  writable output_path → Q (WriteCsv output_path) →
  keeps R (after_path_check argv llm emb found).
Proof.
  intros Hread Hw Hwrite. unfold after_path_check. cbn zeta.
  destruct (negb found); [keeps_step|].
  repeat first
    [ keeps_step
    | by apply keeps_load_data
    | by apply keeps_save_detailed_results
    | apply keeps_evaluate_with_ragas
    | apply keeps_to_pandas ].
Qed.

End ScriptFrame.

Lemma main_after_path_check ext argv :
  main ext argv =
  (print "RAGAS Evaluation Script with Azure OpenAI" ;;
   print (str_repeat "=" 40) ;;
   print (nl +:+ "Configuring Azure OpenAI...") ;;
   azure_config ← configure_azure_openai ext;
   '(azure_llm, azure_embeddings) ←
     match azure_config with
     | None =>
         print "Falling back to default OpenAI configuration..." ;;
         mret (@None client, @None client)
     | Some (llm, embeddings) => mret (Some llm, Some embeddings)
     end;
   found ← path_exists (csv_path_of argv);
   after_path_check ext argv azure_llm azure_embeddings found).
Proof. reflexivity. Qed.

(** A statement that always returns, whatever the world. *)
Definition returns {A : Type} (m : M A) : Prop :=
  ∀ w, ∃ a, (m w).1 = Return a.

Lemma returns_ret {A} (a : A) : returns (mret a).
Proof. intros w. by exists a. Qed.

Lemma returns_print s : returns (print s).
Proof. intros w. by exists tt. Qed.

Lemma returns_bind {A B} (m : M A) (f : A → M B) :
  returns m → (∀ a, returns (f a)) → returns (m ≫= f).
Proof.
  intros Hm Hf w. unfold mbind, M_bind. destruct (Hm w) as [a Ha].
  destruct (m w) as [o w1]. cbn in Ha. subst o. apply Hf.
Qed.

Lemma returns_try_except {A} (body : M A) (handler : exn → M A) :
  (∀ e, returns (handler e)) → returns (try_except body handler).
Proof.
  intros Hh w. unfold try_except. destruct (body w) as [[a|e] w1].
  - by exists a.
  - apply Hh.
Qed.

Lemma returns_getenv k : returns (getenv k).
Proof. intros w. by eexists. Qed.

Lemma returns_getenv_default k d : returns (getenv_default k d).
Proof. intros w. by eexists. Qed.

Lemma returns_missing_vars_of vars : returns (missing_vars_of vars).
Proof.
  induction vars as [|v vars IH]; [apply returns_ret|].
  cbn [missing_vars_of]. apply returns_bind; [apply returns_getenv|]. intros value.
  apply returns_bind; [exact IH|]. intros others. apply returns_ret.
Qed.

Ltac returns_step :=
  lazymatch goal with
  | |- returns (mbind _ _) => apply returns_bind; [|intros ?]
  | |- returns (mret _) => apply returns_ret
  | |- returns (print _) => apply returns_print
  | |- returns (getenv _) => apply returns_getenv
  | |- returns (getenv_default _ _) => apply returns_getenv_default
  | |- returns (missing_vars_of _) => apply returns_missing_vars_of
  | |- returns (try_except _ _) => apply returns_try_except; intros ?
  | |- returns (match ?x with _ => _ end) => destruct x
  end.

(** [configure_azure_openai] catches whatever the clients raise. *)
Lemma configure_returns ext : returns (configure_azure_openai ext).
Proof. unfold configure_azure_openai. repeat returns_step. Qed.

(** The file events [main] may add to the trace: it asks for and reads
    the input path only, and writes the output path only. *)
Definition allowed (argv : list string) (ev : event) : Prop :=
  match ev with
  | PathExists p | ReadCsv p => p = csv_path_of argv
  | WriteCsv p => p = output_path
  | _ => True
  end.

Definition footprint (argv : list string) (w w' : World) : Prop :=
  (∃ evs, trace w' = trace w ++ evs ∧ Forall (allowed argv) evs)
  ∧ (∀ p, p ≠ output_path → files w' !! p = files w !! p)
  ∧ denied w' = denied w.

Lemma footprint_refl argv w : footprint argv w w.
Proof. split; [|done]. exists []. by rewrite app_nil_r. Qed.

Lemma footprint_silent argv w w' :
  trace w' = trace w → files w' = files w → denied w' = denied w →
  footprint argv w w'.
Proof.
  intros Ht Hf Hd. split; [|split; [by rewrite Hf|done]].
  exists []. by rewrite app_nil_r.
Qed.

Lemma footprint_trans argv w1 w2 w3 :
  footprint argv w1 w2 → footprint argv w2 w3 → footprint argv w1 w3.
Proof.
  intros ((evs1 & Ht1 & Ha1) & Hf1 & Hd1) ((evs2 & Ht2 & Ha2) & Hf2 & Hd2).
  split; [|split].
  - exists (evs1 ++ evs2). split; [by rewrite Ht2, Ht1, app_assoc|].
    by apply Forall_app.
  - intros p Hp. by rewrite Hf2, Hf1.
  - by rewrite Hd2.
Qed.

Lemma footprint_record argv ev w : allowed argv ev → footprint argv w (record ev w).
Proof. intros Hev. split; [|done]. exists [ev]. split; [done|by constructor]. Qed.

Lemma footprint_write argv p text w :
  p = output_path → allowed argv (WriteCsv p) →
  footprint argv w (set_files (<[p := text]> (files w)) (record (WriteCsv p) w)).
Proof.
  intros -> Hev. split; [|split; [|done]].
  - exists [WriteCsv output_path]. split; [done|by constructor].
  - intros p Hp. cbn. by rewrite lookup_insert_ne.
Qed.

Lemma allowed_external argv ev : external_call ev → allowed argv ev.
Proof. by destruct ev. Qed.

(** Files and write permissions stay as they are. *)
Definition same_files (w w' : World) : Prop :=
  files w' = files w ∧ denied w' = denied w.

Lemma same_files_trans w1 w2 w3 :
  same_files w1 w2 → same_files w2 w3 → same_files w1 w3.
Proof. intros [Hf1 Hd1] [Hf2 Hd2]. split; congruence. Qed.

Lemma keeps_files_configure ext : keeps same_files (configure_azure_openai ext).
Proof.
  apply keeps_configure with (Q := external_call);
    try done. apply same_files_trans.
Qed.

Lemma keeps_files_evaluate ext ds llm emb :
  keeps same_files (evaluate_with_ragas ext ds llm emb).
Proof.
  apply keeps_evaluate_with_ragas with (Q := external_call);
    try done. apply same_files_trans.
Qed.

Lemma keeps_footprint_after_path_check ext argv llm emb found :
  keeps (footprint argv) (after_path_check ext argv llm emb found).
Proof.
  apply keeps_after_path_check
    with (Q := allowed argv) (writable := λ p, p = output_path);
    try done.
  - apply footprint_refl.
  - apply footprint_trans.
  - intros s w. by apply footprint_silent.
  - intros env w. by apply footprint_silent.
  - apply footprint_record.
  - apply footprint_write.
  - apply allowed_external.
Qed.

(** [main] up to the test for the input file: it has printed, read the
    configuration and perhaps built the clients, and touched no file. *)
Lemma main_decomposed ext argv w :
  ∃ llm emb w1,
    (∃ evs, trace w1 = trace w ++ evs ∧ Forall external_call evs)
    ∧ same_files w w1
    ∧ main ext argv w
      = after_path_check ext argv llm emb
          (bool_decide (is_Some (files w1 !! csv_path_of argv)))
          (record (PathExists (csv_path_of argv)) w1).
Proof.
  rewrite main_after_path_check.
  unfold mbind at 1 2 3 4, M_bind, print. cbn beta iota.
  set (w0 := put_line _ (put_line _ (put_line _ w))).
  destruct (configure_returns ext w0) as [cfg Hcfg].
  pose proof (keeps_files_configure ext w0) as Hfiles.
  assert (∃ evs, trace (configure_azure_openai ext w0).2 = trace w ++ evs
                 ∧ Forall external_call evs) as Htrace.
  { change (trace w) with (trace w0).
    apply (keeps_configure
             (λ w w', ∃ evs, trace w' = trace w ++ evs ∧ Forall external_call evs)
             external_call); try done.
    - intros w'. exists []. by rewrite app_nil_r.
    - intros w1 w2 w3 (evs1 & -> & H1) (evs2 & -> & H2).
      exists (evs1 ++ evs2). split; [by rewrite app_assoc|by apply Forall_app].
    - intros s w'. exists []. by rewrite app_nil_r.
    - intros ev w' Hev. exists [ev]. split; [done|by constructor]. }
  destruct (configure_azure_openai ext w0) as [o w1]. cbn in Hcfg, Hfiles, Htrace.
  subst o. destruct cfg as [[l e]|].
  - exists (Some l), (Some e), w1. split; [done|]. split; [done|]. reflexivity.
  - exists None, None, (put_line "Falling back to default OpenAI configuration..." w1).
    split; [done|]. split; [done|]. reflexivity.
Qed.

Lemma evaluate_succeeds ext ds llm emb w r :
  (∀ env ms l e, ext_evaluate ext env ds ms l e = Return r) →
  (evaluate_with_ragas ext ds llm emb w).1 = Return (Some r).
Proof.
  intros Hr. unfold evaluate_with_ragas.
  destruct (both llm emb); run_script; by rewrite Hr.
Qed.

#[local] Arguments evaluate_with_ragas : simpl never.
#[local] Arguments read_csv_text : simpl never.
#[local] Arguments to_csv_text : simpl never.
#[local] Arguments csv_path_of : simpl never.
#[local] Arguments fmt_shape : simpl never.
#[local] Arguments prepare_ragas_dataset : simpl never.
#[local] Arguments getitem : simpl never.
#[local] Arguments unique : simpl never.
#[local] Arguments tolist : simpl never.

(** A run of [main] in which every step succeeds writes the table of the
    evaluation to the output path. *)
Lemma main_success ext argv w text df cats ds r res :
  files w !! csv_path_of argv = Some text →
  read_csv_text text = Return df →
  (column ← getitem df "category"; values ← unique column; tolist values)
    = Return cats →
  prepare_ragas_dataset df = Return ds →
  (∀ env ms l e, ext_evaluate ext env ds ms l e = Return r) →
  res_to_pandas r = Some res →
  output_path ∉ denied w →
  (main ext argv w).1 = Return tt
  ∧ files (main ext argv w).2 !! output_path = Some (to_csv_text res).
Proof.
  intros Hfile Hread Hcats Hprep Heval Hres Hdenied.
  destruct (main_decomposed ext argv w) as (llm & emb & w1 & _ & [Hf1 Hd1] & ->).
  rewrite Hf1, Hfile.
  rewrite bool_decide_eq_true_2 by done.
  unfold after_path_check. cbn zeta. cbn [negb].
  unfold mbind, outcome_bind in Hcats. cbn in Hcats.
  unfold load_data. run_script.
  rewrite Hf1, Hfile, Hread. run_script.
  unfold outcome_bind. rewrite Hcats. run_script. rewrite Hprep. run_script.
  match goal with
  | |- context [evaluate_with_ragas ext ds llm emb ?w0] =>
      pose proof (evaluate_succeeds ext ds llm emb w0 r Heval) as Hrun;
      pose proof (keeps_files_evaluate ext ds llm emb w0) as [Hf2 Hd2];
      destruct (evaluate_with_ragas ext ds llm emb w0) as [o w2]
  end.
  cbn in Hrun, Hf2, Hd2. subst o. cbn. rewrite Hres. run_script.
  unfold save_detailed_results. run_script.
  rewrite Hd2, Hd1. rewrite bool_decide_eq_false_2 by done. run_script.
  split; [done|]. apply lookup_insert_eq.
Qed.

(** A run on the sample table: nothing is configured, the evaluator
    answers with the sample result. *)
Definition scoring_externals : Externals :=
  mkExternals (λ _, None) (λ _ _, Return "Hello!") (λ _ _, Return 1536)
    (λ _ _ _ _ _, Return (mkResult (λ _, true) (Some WriterSpec.sample_result)))
    (λ _, "") (λ _, "") (λ _, "").

Definition sample_files : gmap string string :=
  <["qa.csv" := to_csv_text PreparerSpec.sample_table]> ∅.

Definition sample_run_world : World := mkWorld ∅ [] sample_files ∅ [].

Definition sample_argv : list string := ["ragas_evaluation.py"; "qa.csv"].

(** C6.  [main] looks at one argument at most: with no argument the input
    path is [sample_questions_with_answers.csv], with arguments it is the
    first of them and the others change nothing.  The input path is the
    only path [main] asks for (which it does in every run) or reads, and
    the fixed [ragas_evaluation_results.csv] is the only path it writes:
    every other file is as it was after the run, and a run in which
    loading, preparing and evaluating succeed leaves the table of the
    evaluation in that file. *)
Theorem main_input_and_output_paths ext argv w :
  let run := main ext argv w in
  ((length argv ≤ 1)%nat → csv_path_of argv = default_csv_path)
  ∧ (∀ prog arg rest, argv = prog :: arg :: rest →
       csv_path_of argv = arg ∧ main ext argv = main ext [prog; arg])
  ∧ (∃ evs, trace run.2 = trace w ++ evs
          ∧ Forall (allowed argv) evs
          ∧ PathExists (csv_path_of argv) ∈ evs)
  ∧ (∀ p, p ≠ output_path → files run.2 !! p = files w !! p)
  ∧ (∀ text df cats ds r res,
       files w !! csv_path_of argv = Some text →
       read_csv_text text = Return df →
       (column ← getitem df "category"; values ← unique column; tolist values)
         = Return cats →
       prepare_ragas_dataset df = Return ds →
       (∀ env ms l e, ext_evaluate ext env ds ms l e = Return r) →
       res_to_pandas r = Some res →
       output_path ∉ denied w →
       run.1 = Return tt
       ∧ files run.2 !! output_path = Some (to_csv_text res)).
Proof.
  cbn zeta. split; [|split; [|split; [|split]]].
  - intros Hlen. destruct argv as [|prog [|arg rest]]; [done|done|].
    cbn in Hlen. lia.
  - by intros prog arg rest ->.
  - destruct (main_decomposed ext argv w)
      as (llm & emb & w1 & (evs1 & Ht1 & Hext) & [Hf1 Hd1] & ->).
    destruct (keeps_footprint_after_path_check ext argv llm emb
                (bool_decide (is_Some (files w1 !! csv_path_of argv)))
                (record (PathExists (csv_path_of argv)) w1))
      as ((evs2 & Ht2 & Hall) & _ & _).
    exists (evs1 ++ [PathExists (csv_path_of argv)] ++ evs2).
    split; [|split].
    + rewrite Ht2. cbn [trace record]. rewrite Ht1.
      by rewrite <- !app_assoc.
    + apply Forall_app. split.
      * eapply Forall_impl; [exact Hext|]. apply allowed_external.
      * apply Forall_app. split; [by repeat constructor|done].
    + apply elem_of_app. right. apply elem_of_app. left. constructor.
  - intros p Hp.
    destruct (main_decomposed ext argv w)
      as (llm & emb & w1 & _ & [Hf1 Hd1] & ->).
    destruct (keeps_footprint_after_path_check ext argv llm emb
                (bool_decide (is_Some (files w1 !! csv_path_of argv)))
                (record (PathExists (csv_path_of argv)) w1))
      as (_ & Hf2 & _).
    rewrite Hf2 by done. cbn [files record]. by rewrite Hf1.
  - intros text df cats ds r res. apply main_success.
Qed.

Lemma main_input_and_output_paths_witness :
  (main scoring_externals sample_argv sample_run_world).1 = Return tt
  ∧ files (main scoring_externals sample_argv sample_run_world).2 !! output_path
    = Some (to_csv_text WriterSpec.sample_result).
Proof.
  destruct (main_input_and_output_paths scoring_externals sample_argv
              sample_run_world) as (_ & _ & _ & _ & Hrun).
  apply (Hrun (to_csv_text PreparerSpec.sample_table) PreparerSpec.sample_table
              ["math"; "geography"]
              (mkDataset ["What is 2+2?"; "Capital of France?"] ["4"; "Paris"]
                         [["4"]; ["Paris"]] ["4"; "Paris"])
              (mkResult (λ _, true) (Some WriterSpec.sample_result))
              WriterSpec.sample_result).
  - reflexivity.
  - vm_compute. reflexivity.
  - reflexivity.
  - reflexivity.
  - reflexivity.
  - reflexivity.
  - cbn. apply not_elem_of_empty.
Defined.

End MainSpec.

(** * Further properties of the two scripts *)

(** ** Loading and saving *)

Module FileFacts.
Import Py Pandas Datasets Runtime RagasEvaluation.

#[local] Arguments read_csv_text : simpl never.
#[local] Arguments to_csv_text : simpl never.

(** What reading the file at a path gives. *)
Definition file_table (w : World) (path : string) : outcome DataFrame :=
  match files w !! path with
  | None => Raise (FileNotFoundError path)
  | Some text => read_csv_text text
  end.

(** X1.  [load_data] never raises: it returns the table when the file
    exists and parses, and [None] otherwise (no such file, no columns, a
    malformed line).  Either way it prints exactly one line, the count of
    records or the error, reads the one path it was given and leaves files
    and environment as they were. *)
Theorem load_data_never_raises path w :
  let run := load_data path w in
  run.1 = Return (match file_table w path with
                  | Return df => Some df
                  | Raise _ => None
                  end)
  ∧ stdout run.2 = stdout w ++
      [match file_table w path with
       | Return df => "Successfully loaded " +:+ pretty (df_len df)
                      +:+ " records from " +:+ path
       | Raise e => "Error loading data: " +:+ str_exn e
       end]
  ∧ trace run.2 = trace w ++ [ReadCsv path]
  ∧ files run.2 = files w
  ∧ environ run.2 = environ w.
Proof.
  cbn zeta. unfold load_data, file_table. run_script.
  destruct (files w !! path) as [text|]; [destruct (read_csv_text text)|];
    by run_script.
Qed.

(** The file [save_detailed_results] leaves at the path. *)
Definition saved_file (result_df : option DataFrame) (path : string) (w : World)
  : option string :=
  match result_df with
  | Some df => if bool_decide (path ∈ denied w) then files w !! path
               else Some (to_csv_text df)
  | None => files w !! path
  end.

(** X2.  [save_detailed_results] never raises.  Without a table it writes
    nothing; with one it writes the CSV text of the table to the path, or,
    when the path cannot be written, prints the error and leaves the file
    as it was.  No other file changes, and one line is printed in each
    case. *)
Theorem save_detailed_results_never_raises result_df path w :
  let run := save_detailed_results result_df path w in
  run.1 = Return tt
  ∧ files run.2 !! path = saved_file result_df path w
  ∧ (∀ p, p ≠ path → files run.2 !! p = files w !! p)
  ∧ stdout run.2 = stdout w ++
      [match result_df with
       | None => "No results to save."
       | Some _ => if bool_decide (path ∈ denied w)
                   then "Error saving results: " +:+ str_exn (PermissionError path)
                   else "Detailed results saved to: " +:+ path
       end]
  ∧ trace run.2 = trace w ++ match result_df with
                             | Some _ => [WriteCsv path]
                             | None => []
                             end.
Proof.
  cbn zeta. unfold save_detailed_results, saved_file.
  destruct result_df as [df|]; run_script.
  - case_bool_decide; run_script.
    + by repeat split.
    + repeat split; try done.
      * apply lookup_insert_eq.
      * intros p Hp. by apply lookup_insert_ne.
  - repeat split; try done. by rewrite app_nil_r.
Qed.

End FileFacts.

(** ** The evaluator, when the first call succeeds or no handle is passed *)

Module EvaluatorFacts.
Import Py Pandas Datasets Runtime RagasEvaluation EvaluatorSpec.

(** The first call to the evaluator: the handles go with it only when both
    were supplied. *)
Definition first_call (ds : Dataset) (llm emb : option client) : event :=
  if both llm emb then Evaluate ds metrics llm emb
  else Evaluate ds metrics None None.

(** X3.  When the first call to the evaluator returns,
    [evaluate_with_ragas] returns its result after that one call, prints
    the start and the success line, and leaves the environment as it
    was. *)
Theorem evaluate_first_attempt_succeeds ext ds llm emb w r :
  first_attempt ext ds llm emb w = Return r →
  let run := evaluate_with_ragas ext ds llm emb w in
  run.1 = Return (Some r)
  ∧ trace run.2 = trace w ++ [first_call ds llm emb]
  ∧ environ run.2 = environ w
  ∧ stdout run.2 = stdout w ++ ["Starting RAGAS evaluation...";
                                "RAGAS evaluation completed successfully!"].
Proof.
  unfold first_attempt, first_call. intros Hfirst. cbn zeta.
  unfold evaluate_with_ragas.
  destruct (both llm emb); run_script; rewrite Hfirst; run_script;
    by rewrite <- app_assoc.
Qed.

Lemma evaluate_first_attempt_succeeds_witness :
  let run := evaluate_with_ragas ConfigSpec.willing_externals empty_dataset
               (Some sample_client) None sample_world in
  run.1 = Return (Some (mkResult (λ _, true) None))
  ∧ trace run.2 = trace sample_world ++ [Evaluate empty_dataset metrics None None]
  ∧ environ run.2 = environ sample_world
  ∧ stdout run.2 = stdout sample_world ++
      ["Starting RAGAS evaluation..."; "RAGAS evaluation completed successfully!"].
Proof.
  apply (evaluate_first_attempt_succeeds ConfigSpec.willing_externals
           empty_dataset (Some sample_client) None sample_world).
  reflexivity.
Defined.

(** X4.  Whatever the evaluator does, [evaluate_with_ragas] returns (it
    never raises) after one call or two.  The first call carries both
    handles or none: a handle supplied alone is not passed on.  A second
    call is made only when both handles were supplied, and then without
    them.  When the handles were not both supplied the environment is not
    touched. *)
Theorem evaluator_calls ext ds llm emb w :
  let run := evaluate_with_ragas ext ds llm emb w in
  (∃ r, run.1 = Return r)
  ∧ (trace run.2 = trace w ++ [first_call ds llm emb]
     ∨ (both llm emb = true
        ∧ trace run.2 = trace w ++ [first_call ds llm emb;
                                    Evaluate ds metrics None None]))
  ∧ (both llm emb = false → environ run.2 = environ w).
Proof.
  cbn zeta.
  destruct (first_attempt ext ds llm emb w) as [r|err] eqn:Hfirst.
  - destruct (evaluate_first_attempt_succeeds _ _ _ _ _ _ Hfirst)
      as (Hr & Ht & He & _).
    split; [by eexists|]. split; [by left|done].
  - destruct (both llm emb) eqn:Hboth.
    + destruct llm as [l|], emb as [e|]; try discriminate.
      rewrite (evaluate_fallback_run _ _ _ _ _ _ Hfirst). cbn [fst snd].
      split; [by eexists|]. split; [|done]. right. split; [done|].
      unfold first_call. cbn [both].
      destruct (second_attempt ext ds w); cbn; by rewrite <- app_assoc.
    + rewrite (evaluate_no_fallback_run _ _ _ _ _ _ Hboth Hfirst). cbn [fst snd].
      split; [by eexists|]. split; [|done]. left.
      unfold first_call. by rewrite Hboth.
Qed.

End EvaluatorFacts.

(** ** The result display, when no metric is shown *)

Module DisplayFacts.
Import Py Pandas Datasets Runtime RagasEvaluation.

(** The three tests a metric key has to pass to be displayed. *)
Definition displayed (result : result_obj) (key : string) : bool :=
  res_contains result key &&
  match res_to_pandas result with
  | Some df => df_contains key df
  | None => false
  end.

Lemma metrics_loop_silent ext result (l : list (string * string)) w :
  (∀ key name, (key, name) ∈ l → displayed result key = false) →
  for_each l (λ '(metric_key, metric_name),
    if res_contains result metric_key then
      match res_to_pandas result with
      | Some result_df =>
          if df_contains metric_key result_df then
            category_indices ← load_global "category_indices";
            category_scores ← iloc_getitem result_df category_indices metric_key;
            print ("  " +:+ ljust 18 metric_name +:+ ": "
                   +:+ fmt_mean ext category_scores)
          else mret tt
      | None => mret tt
      end
    else mret tt) w
  = (Return tt, w).
Proof.
  induction l as [|[k n] l IH]; intros Hl; [done|].
  pose proof (Hl k n ltac:(constructor)) as Hk. unfold displayed in Hk.
  assert (∀ key name, (key, name) ∈ l → displayed result key = false) as Hl'.
  { intros key name Hin. apply (Hl key name). by constructor. }
  specialize (IH Hl').
  cbn [for_each]. unfold mbind at 1, M_bind.
  destruct (res_contains result k); [|exact IH].
  destruct (res_to_pandas result) as [df|]; [|exact IH].
  cbn in Hk. rewrite Hk. exact IH.
Qed.

(** A table handed to [display_results] as it is: it has no [to_pandas]. *)
Definition bare_table_result : result_obj :=
  mkResult (λ key, String.eqb key "faithfulness") None.

(** X5.  [display_results] returns normally when there is nothing it would
    display: without a result it prints that there is none; with a result
    in which no metric key passes its three tests (the key is in the
    result, the result has [to_pandas], the key is a column of the table)
    it prints its five heading lines and no score.  This is the case of a
    [DataFrame], which has no [to_pandas]. *)
Theorem display_results_without_scores ext result w :
  (∀ key name, (key, name) ∈ metric_names →
     match result with
     | Some r => displayed r key = false
     | None => True
     end) →
  let run := display_results ext result w in
  run.1 = Return tt
  ∧ stdout run.2 = stdout w ++
      match result with
      | None => ["No results to display."]
      | Some _ =>
          [nl +:+ str_repeat "=" 60; "RAGAS EVALUATION RESULTS";
           str_repeat "=" 60; nl +:+ "OVERALL METRICS:"; str_repeat "-" 30]
      end
  ∧ trace run.2 = trace w.
Proof.
  intros Hnone. cbn zeta. destruct result as [r|]; [|done].
  assert (display_results ext (Some r) w
          = (Return tt,
             put_line (str_repeat "-" 30)
               (put_line (nl +:+ "OVERALL METRICS:")
                  (put_line (str_repeat "=" 60)
                     (put_line "RAGAS EVALUATION RESULTS"
                        (put_line (nl +:+ str_repeat "=" 60) w)))))) as ->.
  { unfold display_results.
    unfold mbind at 1 2 3 4 5, M_bind, print. cbn beta iota.
    by rewrite (metrics_loop_silent ext r metric_names). }
  cbn [fst snd stdout trace put_line].
  split; [done|]. split; [|done]. by rewrite <- !app_assoc.
Qed.

Lemma display_results_without_scores_witness :
  let run := display_results ConfigSpec.willing_externals
               (Some bare_table_result) ConfigSpec.bare_world in
  run.1 = Return tt
  ∧ stdout run.2 = stdout ConfigSpec.bare_world ++
      [nl +:+ str_repeat "=" 60; "RAGAS EVALUATION RESULTS";
       str_repeat "=" 60; nl +:+ "OVERALL METRICS:"; str_repeat "-" 30]
  ∧ trace run.2 = trace ConfigSpec.bare_world.
Proof.
  apply (display_results_without_scores ConfigSpec.willing_externals
           (Some bare_table_result) ConfigSpec.bare_world).
  intros key name _. unfold displayed. cbn. apply andb_false_r.
Defined.

End DisplayFacts.

(** ** The dataset preparer, on any table *)

Module PreparerFacts.
Import Py Pandas Datasets Runtime RagasEvaluation PreparerSpec.

(** A table with the three columns the preparer reads, in another order,
    and without the category column. *)
Definition table_without_category_col : DataFrame :=
  mkFrame ["reference"; "question"; "answer"] [["4"; "What is 2+2?"; "4"]].

(** X6.  Whatever the table, a dataset that [prepare_ragas_dataset]
    returns has four columns of one length, the number of records of the
    table, and each entry of [contexts] is the one-element list of the
    entry of [ground_truth] at the same position. *)
Theorem prepared_dataset_shape df ds :
  prepare_ragas_dataset df = Return ds →
  col_contexts ds = map (λ ref, [ref]) (col_ground_truth ds)
  ∧ length (col_question ds) = df_len df
  ∧ length (col_answer ds) = df_len df
  ∧ length (col_contexts ds) = df_len df
  ∧ length (col_ground_truth ds) = df_len df.
Proof.
  unfold prepare_ragas_dataset, df_len.
  destruct (column_tolist_cases df "question") as [[e ->]|(q & -> & Hq)];
    [done|]. cbn.
  destruct (column_tolist_cases df "answer") as [[e ->]|(a & -> & Ha)];
    [done|]. cbn.
  destruct (column_tolist_cases df "reference") as [[e ->]|(r & -> & Hr)];
    [done|]. cbn.
  intros (-> & _)%from_dict_returns. cbn. by rewrite length_map.
Qed.

Lemma prepared_dataset_shape_witness :
  col_contexts (mkDataset ["What is 2+2?"] ["4"] [["4"]] ["4"])
  = map (λ ref, [ref]) (col_ground_truth (mkDataset ["What is 2+2?"] ["4"] [["4"]] ["4"]))
  ∧ length (col_question (mkDataset ["What is 2+2?"] ["4"] [["4"]] ["4"]))
    = df_len table_without_category_col
  ∧ length (col_answer (mkDataset ["What is 2+2?"] ["4"] [["4"]] ["4"]))
    = df_len table_without_category_col
  ∧ length (col_contexts (mkDataset ["What is 2+2?"] ["4"] [["4"]] ["4"]))
    = df_len table_without_category_col
  ∧ length (col_ground_truth (mkDataset ["What is 2+2?"] ["4"] [["4"]] ["4"]))
    = df_len table_without_category_col.
Proof.
  apply (prepared_dataset_shape table_without_category_col).
  reflexivity.
Defined.

(** X7.  On a table whose labels are distinct and in which no record has
    a missing value in a column the preparer reads,
    [prepare_ragas_dataset] returns a dataset exactly when the columns
    question, answer and reference are all there: the category column is
    not needed, and neither the order of the columns nor the presence of
    other columns matters. *)
Theorem prepare_returns_iff df :
  df_wf df → NoDup (df_columns df) → complete_columns df = true →
  (∃ ds, prepare_ragas_dataset df = Return ds)
  ↔ prepared_columns ⊆ df_columns df.
Proof.
  intros Hwf Hnd Hfull. split.
  - intros [ds Hds] c Hc.
    destruct (decide (c ∈ df_columns df)) as [|Hmiss]; [done|]. exfalso.
    unfold prepare_ragas_dataset in Hds. unfold prepared_columns in Hc.
    destruct (column_tolist_cases df "question") as [[e He]|(q & Hq & _)];
      [by rewrite He in Hds|].
    destruct (column_tolist_cases df "answer") as [[e He]|(a & Ha & _)];
      [rewrite Hq in Hds; cbn in Hds; by rewrite He in Hds|].
    destruct (column_tolist_cases df "reference") as [[e He]|(r & Hr & _)];
      [rewrite Hq in Hds; cbn in Hds; rewrite Ha in Hds; cbn in Hds;
       by rewrite He in Hds|].
    apply elem_of_cons in Hc as [->|Hc];
      [by rewrite getitem_absent in Hq|].
    apply elem_of_cons in Hc as [->|Hc];
      [by rewrite getitem_absent in Ha|].
    apply elem_of_cons in Hc as [->|Hc];
      [by rewrite getitem_absent in Hr|].
    by apply elem_of_nil in Hc.
  - intros Hcols.
    destruct (getitem_column df "question" Hnd) as (kq & Hkq & Hq).
    { apply Hcols. unfold prepared_columns. repeat constructor. }
    destruct (getitem_column df "answer" Hnd) as (ka & Hka & Ha).
    { apply Hcols. unfold prepared_columns. repeat constructor. }
    destruct (getitem_column df "reference" Hnd) as (kr & Hkr & Hr).
    { apply Hcols. unfold prepared_columns. repeat constructor. }
    assert (Hcq := complete_column df kq "question" Hwf Hnd Hkq
                     ltac:(unfold prepared_columns; repeat constructor) Hfull).
    assert (Hca := complete_column df ka "answer" Hwf Hnd Hka
                     ltac:(unfold prepared_columns; repeat constructor) Hfull).
    assert (Hcr := complete_column df kr "reference" Hwf Hnd Hkr
                     ltac:(unfold prepared_columns; repeat constructor) Hfull).
    unfold prepare_ragas_dataset. rewrite Hq, Ha, Hr. cbn.
    unfold from_dict.
    rewrite (pa_array_complete _ Hcq), (pa_array_complete _ Hca),
      (pa_list_array_complete _ Hcr), (pa_array_complete _ Hcr).
    cbn. rewrite bool_decide_eq_true_2 by (rewrite !length_map; done).
    by eexists.
Qed.

Lemma prepare_returns_iff_witness :
  (∃ ds, prepare_ragas_dataset table_without_category_col = Return ds)
  ↔ prepared_columns ⊆ df_columns table_without_category_col.
Proof.
  apply (prepare_returns_iff table_without_category_col).
  - unfold df_wf. cbn. repeat constructor.
  - cbn. compute_done.
  - vm_compute. reflexivity.
Defined.

End PreparerFacts.

(** ** The configuration, when some or all of it is there *)

Module ConfigFacts.
Import Py Pandas Datasets Runtime.

(** The required variables that are unset or empty, in the order of
    [required_vars]. *)
Definition missing_now (w : World) : list string :=
  List.filter (λ var, negb (truthy (environ w !! var)))
              ["AZURE_OPENAI_API_KEY"; "AZURE_OPENAI_ENDPOINT"].

(** A world in which the key is set and the endpoint is set to nothing. *)
Definition empty_endpoint_world : World :=
  mkWorld (<["AZURE_OPENAI_API_KEY" := "0123456789abcdef"]>
             (<["AZURE_OPENAI_ENDPOINT" := ""]> ∅)) [] ∅ ∅ [].

(** X8.  One required variable that is unset, or set to the empty text,
    is enough for both scripts to give up before they build a client:
    [test_azure_openai_config] returns [False] and
    [configure_azure_openai] returns [None], each having printed the list
    of exactly the variables that are unset or empty, and the trace of
    external calls is as it was. *)
Theorem missing_any_required_variable ext w :
  missing_now w ≠ [] →
  let checked := TestAzureConfig.test_azure_openai_config ext w in
  let configured := RagasEvaluation.configure_azure_openai ext w in
  checked.1 = Return false
  ∧ stdout checked.2 = stdout w ++
      ["Testing Azure OpenAI Configuration"; str_repeat "=" 40;
       "❌ Missing required environment variables: "
         +:+ str_join ", " (missing_now w)]
  ∧ trace checked.2 = trace w
  ∧ configured.1 = Return None
  ∧ stdout configured.2 !! length (stdout w)
    = Some ("Error: Missing required environment variables: "
            +:+ str_join ", " (missing_now w))
  ∧ trace configured.2 = trace w.
Proof.
  unfold missing_now. cbn [List.filter]. intros Hmiss. cbn zeta.
  unfold TestAzureConfig.test_azure_openai_config,
         RagasEvaluation.configure_azure_openai.
  run_script.
  destruct (truthy (environ w !! "AZURE_OPENAI_API_KEY"));
    destruct (truthy (environ w !! "AZURE_OPENAI_ENDPOINT"));
    cbn [negb] in *; try done; run_script;
    (repeat split; try done;
     [by rewrite <- !app_assoc
     |rewrite <- !app_assoc; by rewrite lookup_app_r, Nat.sub_diag by lia]).
Qed.

Lemma missing_any_required_variable_witness :
  let checked := TestAzureConfig.test_azure_openai_config
                   ConfigSpec.willing_externals empty_endpoint_world in
  let configured := RagasEvaluation.configure_azure_openai
                      ConfigSpec.willing_externals empty_endpoint_world in
  checked.1 = Return false
  ∧ stdout checked.2 = stdout empty_endpoint_world ++
      ["Testing Azure OpenAI Configuration"; str_repeat "=" 40;
       "❌ Missing required environment variables: "
         +:+ str_join ", " (missing_now empty_endpoint_world)]
  ∧ trace checked.2 = trace empty_endpoint_world
  ∧ configured.1 = Return None
  ∧ stdout configured.2 !! length (stdout empty_endpoint_world)
    = Some ("Error: Missing required environment variables: "
            +:+ str_join ", " (missing_now empty_endpoint_world))
  ∧ trace configured.2 = trace empty_endpoint_world.
Proof.
  apply (missing_any_required_variable ConfigSpec.willing_externals
           empty_endpoint_world).
  vm_compute. discriminate.
Defined.

(** The clients [configure_azure_openai] builds from an environment: the
    version and the deployments fall back on their defaults, and the
    deployment is also passed as the model. *)
Definition runner_chat_client (env : gmap string string) : client :=
  AzureChatOpenAI
    (mkArgs (env !! "AZURE_OPENAI_API_KEY")
            (default "2024-02-01" (env !! "AZURE_OPENAI_API_VERSION"))
            (env !! "AZURE_OPENAI_ENDPOINT")
            (default "gpt-4" (env !! "AZURE_OPENAI_MODEL_DEPLOYMENT"))
            (Some (default "gpt-4" (env !! "AZURE_OPENAI_MODEL_DEPLOYMENT")))
            (Some 0)).

Definition runner_embeddings_client (env : gmap string string) : client :=
  AzureOpenAIEmbeddings
    (mkArgs (env !! "AZURE_OPENAI_API_KEY")
            (default "2024-02-01" (env !! "AZURE_OPENAI_API_VERSION"))
            (env !! "AZURE_OPENAI_ENDPOINT")
            (default "text-embedding-ada-002"
                     (env !! "AZURE_OPENAI_EMBEDDING_DEPLOYMENT"))
            (Some (default "text-embedding-ada-002"
                           (env !! "AZURE_OPENAI_EMBEDDING_DEPLOYMENT")))
            None).

(** A world with the two required variables and nothing else. *)
Definition configured_world : World :=
  mkWorld (<["AZURE_OPENAI_API_KEY" := "0123456789abcdef"]>
             (<["AZURE_OPENAI_ENDPOINT" := "https://example.openai.azure.com/"]> ∅))
          [] ∅ ∅ [].

(** X9.  With both required variables set and not empty,
    [configure_azure_openai] never raises and sends no request: it builds
    the chat client and then, only if that was accepted, the embeddings
    client, from the environment and the defaults [2024-02-01], [gpt-4]
    and [text-embedding-ada-002]; it returns the pair when both were
    accepted and [None] when one was refused.  The environment is as it
    was. *)
Theorem configure_with_required_variables ext w :
  truthy (environ w !! "AZURE_OPENAI_API_KEY") = true →
  truthy (environ w !! "AZURE_OPENAI_ENDPOINT") = true →
  let llm := runner_chat_client (environ w) in
  let emb := runner_embeddings_client (environ w) in
  let run := RagasEvaluation.configure_azure_openai ext w in
  run.1 = Return (match ext_construct ext llm, ext_construct ext emb with
                  | None, None => Some (llm, emb)
                  | _, _ => None
                  end)
  ∧ trace run.2 = trace w ++
      Construct llm :: match ext_construct ext llm with
                       | None => [Construct emb]
                       | Some _ => []
                       end
  ∧ environ run.2 = environ w.
Proof.
  intros Hkey Hend. cbn zeta.
  unfold RagasEvaluation.configure_azure_openai,
         runner_chat_client, runner_embeddings_client.
  run_script. rewrite Hkey, Hend. run_script.
  destruct (ext_construct ext (AzureChatOpenAI _)); run_script; [done|].
  destruct (ext_construct ext (AzureOpenAIEmbeddings _)); run_script;
    by rewrite <- app_assoc.
Qed.

Lemma configure_with_required_variables_witness :
  let llm := runner_chat_client (environ configured_world) in
  let emb := runner_embeddings_client (environ configured_world) in
  let run := RagasEvaluation.configure_azure_openai ConfigSpec.willing_externals
               configured_world in
  run.1 = Return (Some (llm, emb))
  ∧ trace run.2 = trace configured_world ++ [Construct llm; Construct emb]
  ∧ environ run.2 = environ configured_world.
Proof.
  apply (configure_with_required_variables ConfigSpec.willing_externals
           configured_world); reflexivity.
Defined.

(** The clients the configuration validator builds: no model, and the
    defaults for what is not set. *)
Definition checker_chat_client (env : gmap string string) : client :=
  AzureChatOpenAI
    (mkArgs (env !! "AZURE_OPENAI_API_KEY")
            (default "2024-02-01" (env !! "AZURE_OPENAI_API_VERSION"))
            (env !! "AZURE_OPENAI_ENDPOINT")
            (default "gpt-4" (env !! "AZURE_OPENAI_MODEL_DEPLOYMENT"))
            None (Some 0)).

Definition checker_embeddings_client (env : gmap string string) : client :=
  AzureOpenAIEmbeddings
    (mkArgs (env !! "AZURE_OPENAI_API_KEY")
            (default "2024-02-01" (env !! "AZURE_OPENAI_API_VERSION"))
            (env !! "AZURE_OPENAI_ENDPOINT")
            (default "text-embedding-ada-002"
                     (env !! "AZURE_OPENAI_EMBEDDING_DEPLOYMENT"))
            None None).

(** The external calls of the validator, in order, up to the first that
    fails, and whether all four went through. *)
Definition check_steps (ext : Externals) (env : gmap string string)
  : list event * bool :=
  let llm := checker_chat_client env in
  let emb := checker_embeddings_client env in
  match ext_construct ext llm with
  | Some _ => ([Construct llm], false)
  | None =>
      match ext_invoke ext llm "Hello, how are you?" with
      | Raise _ => ([Construct llm; Invoke llm "Hello, how are you?"], false)
      | Return _ =>
          match ext_construct ext emb with
          | Some _ => ([Construct llm; Invoke llm "Hello, how are you?";
                        Construct emb], false)
          | None =>
              ([Construct llm; Invoke llm "Hello, how are you?";
                Construct emb; EmbedQuery emb "Hello world"],
               match ext_embed_query ext emb "Hello world" with
               | Return _ => true
               | Raise _ => false
               end)
          end
      end
  end.

(** X10.  With both required variables set and not empty,
    [test_azure_openai_config] never raises.  It builds the chat client,
    sends it one prompt, builds the embeddings client and asks it for one
    embedding, in this order, and stops at the first of the four that
    fails: what comes after is not attempted.  It returns [True] exactly
    when all four went through.  The environment is as it was. *)
Theorem config_test_steps ext w :
  truthy (environ w !! "AZURE_OPENAI_API_KEY") = true →
  truthy (environ w !! "AZURE_OPENAI_ENDPOINT") = true →
  let run := TestAzureConfig.test_azure_openai_config ext w in
  run.1 = Return (check_steps ext (environ w)).2
  ∧ trace run.2 = trace w ++ (check_steps ext (environ w)).1
  ∧ environ run.2 = environ w.
Proof.
  intros Hkey Hend. cbn zeta.
  unfold TestAzureConfig.test_azure_openai_config, check_steps,
         checker_chat_client, checker_embeddings_client.
  run_script. rewrite Hkey, Hend. run_script.
  destruct (ext_construct ext (AzureChatOpenAI _)); run_script; [done|].
  destruct (ext_invoke ext _ _); run_script; [|by rewrite <- !app_assoc].
  destruct (ext_construct ext (AzureOpenAIEmbeddings _)); run_script;
    [by rewrite <- !app_assoc|].
  destruct (ext_embed_query ext _ _); run_script; by rewrite <- !app_assoc.
Qed.

(** Externals whose chat client answers no prompt. *)
Definition mute_externals : Externals :=
  mkExternals (λ _, None) (λ _ _, Raise (ExternalError "404 Not Found"))
    (λ _ _, Return 1536)
    (λ _ _ _ _ _, Return (mkResult (λ _, true) None))
    (λ _, "") (λ _, "") (λ _, "").

Lemma config_test_steps_witness :
  let run := TestAzureConfig.test_azure_openai_config mute_externals
               configured_world in
  run.1 = Return false
  ∧ trace run.2 = trace configured_world ++
      [Construct (checker_chat_client (environ configured_world));
       Invoke (checker_chat_client (environ configured_world)) "Hello, how are you?"]
  ∧ environ run.2 = environ configured_world.
Proof.
  apply (config_test_steps mute_externals configured_world); reflexivity.
Defined.

End ConfigFacts.

(** ** The checker script as a whole *)

Module CheckerFacts.
Import Py Pandas Datasets Runtime TestAzureConfig MaskingSpec.

Lemma put_lines_world ls w :
  put_lines ls w
  = mkWorld (environ w) (stdout w ++ ls) (files w) (denied w) (trace w).
Proof.
  revert w. induction ls as [|s ls IH]; intros w.
  - cbn. rewrite app_nil_r. by destruct w.
  - cbn [put_lines]. rewrite IH. cbn. by rewrite <- app_assoc.
Qed.

(** The run of the environment check: the heading, a line for each Azure
    variable, a line for the fallback key. *)
Lemma environment_check_run w :
  test_environment_variables w
  = (Return tt,
     mkWorld (environ w)
       (stdout w
        ++ [nl +:+ str_repeat "=" 40; "Environment Variables Check";
            str_repeat "=" 40]
        ++ map (report_line (environ w)) azure_vars
        ++ [fallback_line (environ w)])
       (files w) (denied w) (trace w)).
Proof.
  unfold test_environment_variables.
  unfold mbind at 1 2 3 4, M_bind, print. cbn beta iota.
  rewrite report_loop_run by done. cbn beta iota.
  unfold mbind, M_bind, getenv, print.
  rewrite !put_lines_world. cbn [environ stdout files denied trace put_line].
  unfold fallback_line.
  destruct (environ w !! "OPENAI_API_KEY") as [[|c v]|];
    cbn [truthy negb String.eqb default]; unfold put_line;
    cbn [environ stdout files denied trace];
    rewrite <- ?app_assoc; cbn [app]; rewrite ?masked_is_masked_form;
    reflexivity.
Qed.





(** A world in which a key variable has a given value. *)
Definition with_variable (k v : string) (w : World) : World :=
  set_environ (<[k := v]> (environ w)) w.

(** Two keys the check cannot tell apart: both of 12 characters or fewer,
    or both longer and with the same first 8 and last 4 characters. *)
Definition same_mask (v1 v2 : string) : Prop :=
  ((String.length v1 ≤ 12)%nat ∧ (String.length v2 ≤ 12)%nat)
  ∨ ((12 < String.length v1)%nat ∧ (12 < String.length v2)%nat
     ∧ slice_to 8 v1 = slice_to 8 v2 ∧ slice_last 4 v1 = slice_last 4 v2).

Lemma same_mask_masked v1 v2 : same_mask v1 v2 → masked v1 = masked v2.
Proof.
  unfold masked. intros [[H1 H2]|(H1 & H2 & Hp & Hs)].
  - by rewrite !(proj2 (Nat.ltb_ge _ _)) by done.
  - rewrite !(proj2 (Nat.ltb_lt _ _)) by done. by rewrite Hp, Hs.
Qed.

Lemma report_line_same_mask k v1 v2 env item :
  k ∈ key_vars → v1 ≠ EmptyString → v2 ≠ EmptyString → same_mask v1 v2 →
  report_line (<[k := v1]> env) item = report_line (<[k := v2]> env) item.
Proof.
  intros Hk Hv1 Hv2 Hsame. unfold report_line.
  destruct (decide (k = item.1)) as [->|Hne].
  - rewrite !lookup_insert_eq.
    destruct v1 as [|c1 v1]; [done|]. destruct v2 as [|c2 v2]; [done|].
    rewrite bool_decide_eq_true_2 by done.
    by rewrite <- !masked_is_masked_form, (same_mask_masked _ _ Hsame).
  - by rewrite !lookup_insert_ne.
Qed.

Lemma fallback_line_same_mask k v1 v2 env :
  k ∈ key_vars → v1 ≠ EmptyString → v2 ≠ EmptyString → same_mask v1 v2 →
  fallback_line (<[k := v1]> env) = fallback_line (<[k := v2]> env).
Proof.
  intros Hk Hv1 Hv2 Hsame. unfold fallback_line.
  destruct (decide (k = "OPENAI_API_KEY")) as [->|Hne].
  - rewrite !lookup_insert_eq.
    destruct v1 as [|c1 v1]; [done|]. destruct v2 as [|c2 v2]; [done|].
    by rewrite <- !masked_is_masked_form, (same_mask_masked _ _ Hsame).
  - by rewrite !lookup_insert_ne.
Qed.

(** X12.  What the environment check prints for a key depends on the key
    only through its mask: two runs that differ only in the value of
    [AZURE_OPENAI_API_KEY] or of [OPENAI_API_KEY] print the same lines
    when both values have 12 characters or fewer, or when both are longer
    and agree on their first 8 and last 4 characters.  The characters in
    between, and the length of the key, do not show. *)
Theorem environment_check_hides_key_middle k v1 v2 w :
  k ∈ key_vars → v1 ≠ EmptyString → v2 ≠ EmptyString → same_mask v1 v2 →
  stdout (test_environment_variables (with_variable k v1 w)).2
  = stdout (test_environment_variables (with_variable k v2 w)).2.
Proof.
  intros Hk Hv1 Hv2 Hsame. rewrite !environment_check_run.
  cbn [snd stdout environ with_variable set_environ].
  do 2 f_equal. f_equal; [|f_equal].
  - apply map_ext. intros item. by apply report_line_same_mask.
  - by apply fallback_line_same_mask.
Qed.

Lemma environment_check_hides_key_middle_witness :
  stdout (test_environment_variables
            (with_variable "AZURE_OPENAI_API_KEY"
               "0123456789abcdef0123456789abcdef" ConfigSpec.bare_world)).2
  = stdout (test_environment_variables
              (with_variable "AZURE_OPENAI_API_KEY"
                 "01234567-another-key-cdef" ConfigSpec.bare_world)).2.
Proof.
  apply (environment_check_hides_key_middle "AZURE_OPENAI_API_KEY").
  - unfold key_vars. repeat constructor.
  - discriminate.
  - discriminate.
  - right. repeat split; try reflexivity; cbn; lia.
Defined.

(** Case analysis on what the environment holds and on what the externals
    answer, as far as the run at hand asks. *)
Ltac split_run :=
  repeat (run_script;
          match goal with
          | |- context [truthy ?v] => destruct (truthy v)
          | |- context [ext_construct ?e ?c] => destruct (ext_construct e c)
          | |- context [ext_invoke ?e ?c ?p] => destruct (ext_invoke e c p)
          | |- context [ext_embed_query ?e ?c ?t] =>
              destruct (ext_embed_query e c t)
          end);
  run_script.

(** The last line of a run of the checker that passed, and how it begins:
    no other line of the script begins so. *)
Definition success_line : string :=
  nl +:+ "🎉 All tests passed! Ready to run RAGAS evaluation.".



(** Both required variables are set and not empty. *)
Definition configured (env : gmap string string) : bool :=
  truthy (env !! "AZURE_OPENAI_API_KEY")
  && truthy (env !! "AZURE_OPENAI_ENDPOINT").




(** A world in which both required variables are set. *)
Definition ready_world : World := ConfigFacts.configured_world.


(** With clients that answer, the line of success is printed. *)
Lemma checker_main_verdict_line :
  success_line
  ∈ drop (length (stdout ready_world))
         (stdout (TestAzureConfig.main ConfigSpec.willing_externals ready_world).2).
Proof.
  apply list_elem_of_In. vm_compute.
  repeat (first [left; reflexivity | right]).
Qed.

End CheckerFacts.

(** ** Runs of the evaluation runner that do not get to the end *)

Module MainFacts.
Import Py Pandas Datasets Runtime RagasEvaluation Frame MainSpec CheckerFacts.

#[local] Arguments evaluate_with_ragas : simpl never.
#[local] Arguments read_csv_text : simpl never.
#[local] Arguments to_csv_text : simpl never.
#[local] Arguments csv_path_of : simpl never.
#[local] Arguments fmt_shape : simpl never.
#[local] Arguments prepare_ragas_dataset : simpl never.
#[local] Arguments getitem : simpl never.
#[local] Arguments unique : simpl never.
#[local] Arguments tolist : simpl never.

Definition is_construct (ev : event) : Prop :=
  match ev with
  | Construct _ => True
  | _ => False
  end.

Definition is_evaluate (ev : event) : Prop :=
  match ev with
  | Evaluate _ _ _ _ => True
  | _ => False
  end.

(** [configure_azure_openai] returns, having at most built clients. *)
Lemma configure_constructs_only ext w :
  ∃ cfg evs,
    (configure_azure_openai ext w).1 = Return cfg
    ∧ trace (configure_azure_openai ext w).2 = trace w ++ evs
    ∧ Forall is_construct evs
    ∧ files (configure_azure_openai ext w).2 = files w
    ∧ denied (configure_azure_openai ext w).2 = denied w.
Proof.
  unfold configure_azure_openai. split_run;
    eexists; (try by (exists []; rewrite app_nil_r; repeat split; constructor));
    eexists; rewrite <- ?app_assoc; (split; [done|]); (split; [done|]);
    (split; [|done]); by repeat constructor.
Qed.

(** [main] up to the test for the input file. *)
Lemma main_to_path_check ext argv w :
  ∃ llm emb w1 evs,
    trace w1 = trace w ++ evs ∧ Forall is_construct evs
    ∧ files w1 = files w ∧ denied w1 = denied w
    ∧ main ext argv w
      = after_path_check ext argv llm emb
          (bool_decide (is_Some (files w1 !! csv_path_of argv)))
          (record (PathExists (csv_path_of argv)) w1).
Proof.
  rewrite main_after_path_check.
  unfold mbind at 1 2 3 4, M_bind, print. cbn beta iota.
  set (w0 := put_line _ (put_line _ (put_line _ w))).
  destruct (configure_constructs_only ext w0)
    as (cfg & evs & Hcfg & Ht & Hevs & Hf & Hd).
  destruct (configure_azure_openai ext w0) as [o w1]. cbn in Hcfg, Ht, Hevs, Hf, Hd.
  subst o. destruct cfg as [[l e]|].
  - exists (Some l), (Some e), w1, evs. by repeat split.
  - exists None, None,
      (put_line "Falling back to default OpenAI configuration..." w1), evs.
    by repeat split.
Qed.

(** A world with no file at all. *)
Definition no_files_world : World := mkWorld ∅ [] ∅ ∅ [].

(** X14.  When there is no file at the input path, [main] prints that the
    input file was not found and returns: it has at most built the
    clients and asked whether the path exists; it has not read a file,
    called the evaluator or written anything. *)
Theorem main_without_input_file ext argv w :
  files w !! csv_path_of argv = None →
  let run := main ext argv w in
  run.1 = Return tt
  ∧ last (stdout run.2)
    = Some ("Error: Input file '" +:+ csv_path_of argv +:+ "' not found.")
  ∧ files run.2 = files w
  ∧ ∃ evs, trace run.2 = trace w ++ evs ++ [PathExists (csv_path_of argv)]
         ∧ Forall is_construct evs.
Proof.
  intros Hfile. cbn zeta.
  destruct (main_to_path_check ext argv w)
    as (llm & emb & w1 & evs & Ht & Hevs & Hf & Hd & ->).
  rewrite Hf, Hfile. rewrite bool_decide_eq_false_2 by (by intros [? ?]).
  unfold after_path_check. cbn zeta. cbn [negb]. run_script.
  split; [done|]. split; [by rewrite last_snoc|]. split; [done|].
  exists evs. split; [|done]. by rewrite Ht, <- app_assoc.
Qed.

Lemma main_without_input_file_witness :
  let run := main ConfigSpec.willing_externals ["ragas_evaluation.py"]
               no_files_world in
  run.1 = Return tt
  ∧ last (stdout run.2)
    = Some ("Error: Input file '" +:+ csv_path_of ["ragas_evaluation.py"]
            +:+ "' not found.")
  ∧ files run.2 = files no_files_world
  ∧ ∃ evs, trace run.2 = trace no_files_world ++ evs
                         ++ [PathExists (csv_path_of ["ragas_evaluation.py"])]
         ∧ Forall is_construct evs.
Proof.
  apply (main_without_input_file ConfigSpec.willing_externals
           ["ragas_evaluation.py"] no_files_world).
  reflexivity.
Defined.

(** A table without the category column, in a file. *)
Definition uncategorised_files : gmap string string :=
  <["qa.csv" := to_csv_text PreparerFacts.table_without_category_col]> ∅.

Definition uncategorised_world : World :=
  mkWorld ∅ [] uncategorised_files ∅ [].

(** X15.  [main] reads the category column before it prepares the
    dataset: when the input file loads into a table without that column,
    [main] ends in [KeyError] for [category].  It has then asked for and
    read the input path, and has neither called the evaluator nor written
    a file. *)
Theorem main_without_category_column ext argv w text df :
  files w !! csv_path_of argv = Some text →
  read_csv_text text = Return df →
  "category" ∉ df_columns df →
  let run := main ext argv w in
  run.1 = Raise (KeyError "category")
  ∧ files run.2 = files w
  ∧ ∃ evs, trace run.2 = trace w ++ evs ++ [PathExists (csv_path_of argv);
                                            ReadCsv (csv_path_of argv)]
         ∧ Forall is_construct evs.
Proof.
  intros Hfile Hread Hcat. cbn zeta.
  destruct (main_to_path_check ext argv w)
    as (llm & emb & w1 & evs & Ht & Hevs & Hf & Hd & ->).
  rewrite Hf, Hfile. rewrite bool_decide_eq_true_2 by done.
  unfold after_path_check. cbn zeta. cbn [negb].
  unfold load_data. run_script.
  rewrite Hf, Hfile, Hread. run_script.
  unfold outcome_bind. rewrite (PreparerSpec.getitem_absent df "category") by done.
  run_script.
  split; [done|]. split; [done|].
  exists evs. split; [|done]. rewrite Ht. by rewrite <- !app_assoc.
Qed.

Lemma main_without_category_column_witness :
  let run := main ConfigSpec.willing_externals ["ragas_evaluation.py"; "qa.csv"]
               uncategorised_world in
  run.1 = Raise (KeyError "category")
  ∧ files run.2 = files uncategorised_world
  ∧ ∃ evs, trace run.2 = trace uncategorised_world ++ evs
                         ++ [PathExists "qa.csv"; ReadCsv "qa.csv"]
         ∧ Forall is_construct evs.
Proof.
  apply (main_without_category_column ConfigSpec.willing_externals
           ["ragas_evaluation.py"; "qa.csv"] uncategorised_world
           (to_csv_text PreparerFacts.table_without_category_col)
           PreparerFacts.table_without_category_col).
  - reflexivity.
  - vm_compute. reflexivity.
  - cbn. compute_done.
Defined.

(** When every call to the evaluator raises, there is no result. *)
Lemma evaluate_all_fail ext ds llm emb w err :
  (∀ env ms l e, ext_evaluate ext env ds ms l e = Raise err) →
  (evaluate_with_ragas ext ds llm emb w).1 = Return None.
Proof.
  intros Hfail. unfold evaluate_with_ragas.
  destruct (both llm emb); run_script; rewrite Hfail; run_script;
    [by rewrite Hfail|done].
Qed.

Lemma evaluate_only_evaluates ext ds llm emb w :
  ∃ evs, trace (evaluate_with_ragas ext ds llm emb w).2 = trace w ++ evs
       ∧ Forall is_evaluate evs.
Proof.
  unfold evaluate_with_ragas.
  destruct (both llm emb); run_script;
    repeat (match goal with
            | |- context [ext_evaluate ?e ?env ?d ?m ?l ?b] =>
                destruct (ext_evaluate e env d m l b)
            end; run_script);
    eexists; rewrite <- ?app_assoc; (split; [done|]); by repeat constructor.
Qed.

(** Externals whose evaluator always fails. *)
Definition failing_evaluator : Externals :=
  mkExternals (λ _, None) (λ _ _, Return "Hello!") (λ _ _, Return 1536)
    (λ _ _ _ _ _, Raise (ExternalError "401 Unauthorized"))
    (λ _, "") (λ _, "") (λ _, "").

(** X16.  [main] does not look at whether [evaluate_with_ragas] gave a
    result before it calls [to_pandas] on it: when the evaluator raises on
    every call, a run that loaded and prepared its input ends in
    [AttributeError], and no file is written. *)
Theorem main_when_evaluation_fails ext argv w text df cats ds err :
  files w !! csv_path_of argv = Some text →
  read_csv_text text = Return df →
  (column ← getitem df "category"; values ← unique column; tolist values)
    = Return cats →
  prepare_ragas_dataset df = Return ds →
  (∀ env ms l e, ext_evaluate ext env ds ms l e = Raise err) →
  let run := main ext argv w in
  run.1 = Raise (AttributeError "'NoneType' object has no attribute 'to_pandas'")
  ∧ files run.2 = files w
  ∧ ∃ evs, trace run.2 = trace w ++ evs ∧ ∀ p, WriteCsv p ∉ evs.
Proof.
  intros Hfile Hread Hcats Hprep Hfail. cbn zeta.
  destruct (main_to_path_check ext argv w)
    as (llm & emb & w1 & evs & Ht & Hevs & Hf & Hd & ->).
  rewrite Hf, Hfile. rewrite bool_decide_eq_true_2 by done.
  unfold after_path_check. cbn zeta. cbn [negb].
  unfold mbind, outcome_bind in Hcats. cbn in Hcats.
  unfold load_data. run_script.
  rewrite Hf, Hfile, Hread. run_script.
  unfold outcome_bind. rewrite Hcats. run_script. rewrite Hprep. run_script.
  match goal with
  | |- context [evaluate_with_ragas ext ds llm emb ?w0] =>
      pose proof (evaluate_all_fail ext ds llm emb w0 err Hfail) as Hrun;
      pose proof (keeps_files_evaluate ext ds llm emb w0) as [Hf2 Hd2];
      destruct (evaluate_only_evaluates ext ds llm emb w0) as (evs2 & Ht2 & Hevs2);
      destruct (evaluate_with_ragas ext ds llm emb w0) as [o w2]
  end.
  cbn in Hrun, Hf2, Hd2, Ht2. subst o. cbn.
  split; [done|]. split; [by rewrite Hf2|].
  exists (evs ++ [PathExists (csv_path_of argv); ReadCsv (csv_path_of argv)] ++ evs2).
  split.
  - rewrite Ht2, Ht. by rewrite <- !app_assoc.
  - intros p Hin. apply elem_of_app in Hin as [Hin|Hin].
    + rewrite Forall_forall in Hevs. by apply Hevs in Hin.
    + apply elem_of_app in Hin as [Hin|Hin].
      * apply elem_of_cons in Hin as [?|Hin]; [done|].
        apply elem_of_cons in Hin as [?|Hin]; [done|].
        by apply elem_of_nil in Hin.
      * rewrite Forall_forall in Hevs2. by apply Hevs2 in Hin.
Qed.

Lemma main_when_evaluation_fails_witness :
  let run := main failing_evaluator MainSpec.sample_argv MainSpec.sample_run_world in
  run.1 = Raise (AttributeError "'NoneType' object has no attribute 'to_pandas'")
  ∧ files run.2 = files MainSpec.sample_run_world
  ∧ ∃ evs, trace run.2 = trace MainSpec.sample_run_world ++ evs
         ∧ ∀ p, WriteCsv p ∉ evs.
Proof.
  apply (main_when_evaluation_fails failing_evaluator MainSpec.sample_argv
           MainSpec.sample_run_world
           (to_csv_text PreparerSpec.sample_table) PreparerSpec.sample_table
           ["math"; "geography"]
           (mkDataset ["What is 2+2?"; "Capital of France?"] ["4"; "Paris"]
                      [["4"]; ["Paris"]] ["4"; "Paris"])
           (ExternalError "401 Unauthorized")).
  - reflexivity.
  - vm_compute. reflexivity.
  - reflexivity.
  - reflexivity.
  - reflexivity.
Defined.

(** A world whose input file is there and empty. *)
Definition empty_file_world : World :=
  mkWorld ∅ [] (<["qa.csv" := ""]> ∅) ∅ [].

(** X17.  When the input file is there and cannot be parsed (an empty
    file, a malformed line), [main] returns normally: the last line
    printed is the loading error, and it has neither called the evaluator
    nor written a file. *)
Theorem main_with_unreadable_input ext argv w text e :
  files w !! csv_path_of argv = Some text →
  read_csv_text text = Raise e →
  let run := main ext argv w in
  run.1 = Return tt
  ∧ last (stdout run.2) = Some ("Error loading data: " +:+ str_exn e)
  ∧ files run.2 = files w
  ∧ ∃ evs, trace run.2 = trace w ++ evs ++ [PathExists (csv_path_of argv);
                                            ReadCsv (csv_path_of argv)]
         ∧ Forall is_construct evs.
Proof.
  intros Hfile Hread. cbn zeta.
  destruct (main_to_path_check ext argv w)
    as (llm & emb & w1 & evs & Ht & Hevs & Hf & Hd & ->).
  rewrite Hf, Hfile. rewrite bool_decide_eq_true_2 by done.
  unfold after_path_check. cbn zeta. cbn [negb].
  unfold load_data. run_script.
  rewrite Hf, Hfile, Hread. run_script.
  split; [done|]. split; [by rewrite last_snoc|]. split; [done|].
  exists evs. split; [|done]. rewrite Ht. by rewrite <- !app_assoc.
Qed.

Lemma main_with_unreadable_input_witness :
  let run := main ConfigSpec.willing_externals ["ragas_evaluation.py"; "qa.csv"]
               empty_file_world in
  run.1 = Return tt
  ∧ last (stdout run.2)
    = Some ("Error loading data: "
            +:+ str_exn EmptyDataError)
  ∧ files run.2 = files empty_file_world
  ∧ ∃ evs, trace run.2 = trace empty_file_world ++ evs
                         ++ [PathExists "qa.csv"; ReadCsv "qa.csv"]
         ∧ Forall is_construct evs.
Proof.
  apply (main_with_unreadable_input ConfigSpec.willing_externals
           ["ragas_evaluation.py"; "qa.csv"] empty_file_world ""
           EmptyDataError).
  - reflexivity.
  - vm_compute. reflexivity.
Defined.

(** Without a required variable [configure_azure_openai] gives [None] and
    touches nothing but the console. *)
Lemma configure_when_missing ext w :
  truthy (environ w !! "AZURE_OPENAI_API_KEY")
  && truthy (environ w !! "AZURE_OPENAI_ENDPOINT") = false →
  ∃ w', configure_azure_openai ext w = (Return None, w')
      ∧ trace w' = trace w ∧ environ w' = environ w
      ∧ files w' = files w ∧ denied w' = denied w.
Proof.
  intros Hmiss. unfold configure_azure_openai. run_script.
  destruct (truthy (environ w !! "AZURE_OPENAI_API_KEY"));
    destruct (truthy (environ w !! "AZURE_OPENAI_ENDPOINT"));
    cbn in Hmiss; try done; run_script; by eexists.
Qed.

(** Without both handles [evaluate_with_ragas] calls the evaluator once,
    bare, and leaves environment and files alone. *)
Lemma evaluate_without_handles ext ds llm emb w :
  both llm emb = false →
  ∃ o w', evaluate_with_ragas ext ds llm emb w = (Return o, w')
        ∧ trace w' = trace w ++ [Evaluate ds metrics None None]
        ∧ environ w' = environ w.
Proof.
  intros Hboth. unfold evaluate_with_ragas. rewrite Hboth. run_script.
  destruct (ext_evaluate ext _ ds metrics None None); run_script;
    by do 2 eexists.
Qed.

(** A world with an input file and no configuration. *)
Definition unconfigured_world : World :=
  mkWorld ∅ [] MainSpec.sample_files ∅ [].

(** X18.  Without the Azure configuration (a required variable unset or
    empty) [main] goes on all the same: given an input that loads and
    prepares, it builds no client and calls the evaluator exactly once,
    without handles, on the prepared dataset; it does not retry, and the
    environment is as it was.  After the call it either stops (no result)
    or writes the fixed output file. *)
Theorem main_without_configuration ext argv w text df cats ds :
  truthy (environ w !! "AZURE_OPENAI_API_KEY")
  && truthy (environ w !! "AZURE_OPENAI_ENDPOINT") = false →
  files w !! csv_path_of argv = Some text →
  read_csv_text text = Return df →
  (column ← getitem df "category"; values ← unique column; tolist values)
    = Return cats →
  prepare_ragas_dataset df = Return ds →
  let run := main ext argv w in
  environ run.2 = environ w
  ∧ ∃ evs, trace run.2 = trace w ++ [PathExists (csv_path_of argv);
                                     ReadCsv (csv_path_of argv);
                                     Evaluate ds metrics None None] ++ evs
         ∧ (evs = [] ∨ evs = [WriteCsv "ragas_evaluation_results.csv"]).
Proof.
  intros Hmiss Hfile Hread Hcats Hprep. cbn zeta.
  assert (∃ out w', main ext argv w = (out, w')
            ∧ environ w' = environ w
            ∧ ∃ evs, trace w' = trace w ++ [PathExists (csv_path_of argv);
                                            ReadCsv (csv_path_of argv);
                                            Evaluate ds metrics None None] ++ evs
                   ∧ (evs = [] ∨ evs = [WriteCsv "ragas_evaluation_results.csv"]))
    as (out & w' & -> & Hdone); [|exact Hdone].
  rewrite main_after_path_check.
  unfold mbind at 1 2 3 4, M_bind, print. cbn beta iota.
  set (w0 := put_line _ (put_line _ (put_line _ w))).
  destruct (configure_when_missing ext w0 Hmiss)
    as (w1 & -> & Ht & He & Hf & Hd).
  cbn beta iota. run_script.
  rewrite Hf. cbn [files put_line w0]. rewrite Hfile.
  rewrite bool_decide_eq_true_2 by done.
  unfold after_path_check. cbn zeta. cbn [negb].
  unfold mbind, outcome_bind in Hcats. cbn in Hcats.
  unfold load_data. run_script.
  rewrite Hf. cbn [files put_line w0]. rewrite Hfile, Hread. run_script.
  unfold outcome_bind. rewrite Hcats. run_script. rewrite Hprep. run_script.
  match goal with
  | |- context [evaluate_with_ragas ext ds None None ?wa] =>
      destruct (evaluate_without_handles ext ds None None wa eq_refl)
        as (o & w2 & -> & Ht2 & He2)
  end.
  cbn in Ht2, He2. cbn beta iota.
  unfold to_pandas.
  destruct o as [o|]; [destruct (res_to_pandas o) as [res|]|]; run_script.
  - unfold save_detailed_results. run_script.
    destruct (bool_decide _); run_script;
      do 2 eexists; (split; [reflexivity|]); cbn;
      (split; [by rewrite He2, He|]);
      exists [WriteCsv "ragas_evaluation_results.csv"];
      (split; [|by right]); rewrite Ht2, Ht; cbn; by rewrite <- !app_assoc.
  - do 2 eexists. split; [reflexivity|]. cbn.
    split; [by rewrite He2, He|]. exists []. split; [|by left].
    rewrite Ht2, Ht. cbn. by rewrite <- !app_assoc.
  - do 2 eexists. split; [reflexivity|]. cbn.
    split; [by rewrite He2, He|]. exists []. split; [|by left].
    rewrite Ht2, Ht. cbn. by rewrite <- !app_assoc.
Qed.

Lemma main_without_configuration_witness :
  let run := main MainSpec.scoring_externals MainSpec.sample_argv
               unconfigured_world in
  environ run.2 = environ unconfigured_world
  ∧ ∃ evs, trace run.2
           = trace unconfigured_world
             ++ [PathExists (csv_path_of MainSpec.sample_argv);
                 ReadCsv (csv_path_of MainSpec.sample_argv);
                 Evaluate (mkDataset ["What is 2+2?"; "Capital of France?"]
                             ["4"; "Paris"] [["4"]; ["Paris"]] ["4"; "Paris"])
                          metrics None None] ++ evs
         ∧ (evs = [] ∨ evs = [WriteCsv "ragas_evaluation_results.csv"]).
Proof.
  apply (main_without_configuration MainSpec.scoring_externals
           MainSpec.sample_argv unconfigured_world
           (to_csv_text PreparerSpec.sample_table) PreparerSpec.sample_table
           ["math"; "geography"]).
  - reflexivity.
  - reflexivity.
  - vm_compute. reflexivity.
  - reflexivity.
  - reflexivity.
Defined.

End MainFacts.
